(** * jira-releaser: a shallow embedding of [jira-releaser.py]

    The script finds the release tag that precedes a given one, lists the
    pull requests merged in between, collects the Jira issue ids their
    titles and branches mention, creates the Jira version and marks every
    issue as fixed by it.

    Python text ([str]) is a list of Unicode code points, Python [bytes] a
    list of [Byte.byte].  What the script obtains from the outside (git,
    the two REST services, the clock) and the library functions it only
    calls ([json.loads], [json.dumps], [base64.b64encode], the Unicode
    digit table behind [\d]) are the fields of the classes [Platform] and
    [UnicodeData]; the script's own functions are written over them in a
    state-and-exception monad that records every external call. *)

From Stdlib Require Import NArith ZArith Lia.
From Stdlib Require Import Strings.Ascii Strings.String Strings.Byte.
From stdpp Require Import base option list sets gmap.

Set Default Proof Using "Type".
#[local] Set Warnings "-register-all".
Local Open Scope N_scope.

(** ** Text and bytes *)

(** A Python [str]: the sequence of its code points. *)
Abbreviation str := (list N) (only parsing).

(** A Python [bytes] object. *)
Abbreviation bytes := (list byte) (only parsing).

#[global] Instance byte_eq_decision : EqDecision byte := Byte.byte_eq_dec.

(** A literal of the source, written as a Rocq string (ASCII only). *)
Definition lit (s : string) : str := List.map N_of_ascii (list_ascii_of_string s).

(** A bytes literal [b"..."] of the source. *)
Definition blit (s : string) : bytes := list_byte_of_string s.

Arguments lit : simpl never.
Arguments blit : simpl never.

Definition chr_hash : N := 35.     (* '#' *)
Definition chr_hyphen : N := 45.   (* '-' *)
Definition chr_newline : N := 10.  (* '\n' *)

(** A continuation byte of UTF-8, [10xxxxxx]. *)
Definition utf8_cont (b : N) : bool := (128 <=? b) && (b <=? 191).

Definition in_range (lo hi b : N) : bool := (lo <=? b) && (b <=? hi).

(** [b.decode("utf-8")] with the default strict error handling: [None]
    stands for [UnicodeDecodeError].  Only the well-formed byte sequences
    of the Unicode standard are accepted (no overlong form, no surrogate,
    nothing above U+10FFFF). *)
Fixpoint utf8_decode (bs : bytes) : option str :=
  match bs with
  | [] => Some []
  | x0 :: r1 =>
    let b0 := Byte.to_N x0 in
    if b0 <? 128 then cons b0 <$> utf8_decode r1
    else match r1 with
    | [] => None
    | x1 :: r2 =>
      let b1 := Byte.to_N x1 in
      if in_range 194 223 b0 then
        if utf8_cont b1
        then cons ((b0 - 192) * 64 + (b1 - 128)) <$> utf8_decode r2
        else None
      else match r2 with
      | [] => None
      | x2 :: r3 =>
        let b2 := Byte.to_N x2 in
        if in_range 224 239 b0 then
          if (if b0 =? 224 then in_range 160 191 b1
              else if b0 =? 237 then in_range 128 159 b1
              else utf8_cont b1) && utf8_cont b2
          then cons ((b0 - 224) * 4096 + (b1 - 128) * 64 + (b2 - 128))
                 <$> utf8_decode r3
          else None
        else match r3 with
        | [] => None
        | x3 :: r4 =>
          let b3 := Byte.to_N x3 in
          if in_range 240 244 b0 then
            if (if b0 =? 240 then in_range 144 191 b1
                else if b0 =? 244 then in_range 128 143 b1
                else utf8_cont b1) && utf8_cont b2 && utf8_cont b3
            then cons ((b0 - 240) * 262144 + (b1 - 128) * 4096
                       + (b2 - 128) * 64 + (b3 - 128))
                   <$> utf8_decode r4
            else None
          else None
        end
      end
    end
  end.

(** [s.encode("ascii")]: [None] stands for [UnicodeEncodeError]. *)
Fixpoint ascii_encode (s : str) : option bytes :=
  match s with
  | [] => Some []
  | c :: s' =>
    if c <? 128
    then match Byte.of_N c with
         | Some b => cons b <$> ascii_encode s'
         | None => None
         end
    else None
  end.

(** The bytes that [bytes.strip()] removes: space, tab, line feed,
    carriage return, vertical tab and form feed. *)
Definition bytes_space (b : byte) : bool :=
  let n := Byte.to_N b in (n =? 32) || in_range 9 13 n.

Fixpoint lstrip (bs : bytes) : bytes :=
  match bs with
  | b :: bs' => if bytes_space b then lstrip bs' else bs
  | [] => []
  end.

(** [bs.strip()] *)
Definition strip (bs : bytes) : bytes := rev (lstrip (rev (lstrip bs))).

(** [s.split(sep)] for a one-element separator: the pieces between the
    occurrences of [sep], always at least one piece. *)
Fixpoint split_on {A} `{EqDecision A} (sep : A) (s : list A) : list (list A) :=
  match s with
  | [] => [[]]
  | c :: s' =>
    if decide (c = sep) then [] :: split_on sep s'
    else match split_on sep s' with
         | piece :: pieces => (c :: piece) :: pieces
         | [] => [[c]]
         end
  end.

Definition byte_newline : byte := "010"%byte.

(** [sep.join(l)] *)
Fixpoint join (sep : str) (l : list str) : str :=
  match l with
  | [] => []
  | [x] => x
  | x :: l' => x ++ sep ++ join sep l'
  end.

(** ** JSON documents *)

(** What [json.loads] returns.  [JNull] is Python's [None]; an object is a
    [dict], kept as the list of its items (a key is looked up from the
    front). *)
Inductive json :=
| JNull
| JBool (b : bool)
| JNum (repr : str)
| JStr (s : str)
| JArr (items : list json)
| JObj (fields : list (str * json)).

(** [d.get(k)] on the items of a dict. *)
Fixpoint obj_get (k : str) (fields : list (str * json)) : option json :=
  match fields with
  | [] => None
  | (k', v) :: rest => if decide (k' = k) then Some v else obj_get k rest
  end.

(** ** Exceptions and outcomes *)

Inductive exn :=
| TypeError
| KeyError (key : str)
| AttributeError
| IndexError
| ValueError
| UnicodeDecodeError
| UnicodeEncodeError
| JSONDecodeError
| HTTPError (code : N) (body : bytes)
| URLError
| CalledProcessError (returncode : Z)
| OSError
| PatternOutsideModel.

(** The result of running a piece of the script: a value or a raised
    exception. *)
Inductive outcome (A : Type) :=
| Ok (a : A)
| Raise (e : exn).
Arguments Ok {A} a.
Arguments Raise {A} e.

Definition of_option {A} (e : exn) (o : option A) : outcome A :=
  match o with Some a => Ok a | None => Raise e end.

(** [j[k]] for a string key [k]: only a dict can be subscripted by a
    string, and the key must be there. *)
Definition subscript (j : json) (k : str) : outcome json :=
  match j with
  | JObj fields => of_option (KeyError k) (obj_get k fields)
  | _ => Raise TypeError
  end.

(** [j.get(k, default)]: only a dict has the method. *)
Definition dict_get (j : json) (k : str) (default : json) : outcome json :=
  match j with
  | JObj fields => Ok (from_option id default (obj_get k fields))
  | _ => Raise AttributeError
  end.

(** ** Regular expressions

    The script uses three patterns: ["#[\d]+"], the project key followed by
    ["-[\d]+"], and ["^v\d+\.\d+\.\d+$"].  They all lie in the fragment
    below: a sequence of single characters and greedy [+] repetitions of a
    single character, with the two anchors.  The matcher backtracks as
    Python's does. *)

(** The table behind [\d] outside ASCII (a [str] pattern matches every
    Unicode decimal digit); it belongs to the interpreter, not to the
    script. *)
Class UnicodeData := { unicode_decimal : N -> bool }.

Inductive atom :=
| Lit (c : N)      (* an ordinary character *)
| AnyChar          (* [.]: anything but a newline *)
| Digit.           (* [\d], also written [[\d]] *)

Inductive item :=
| One (a : atom)
| Many1 (a : atom) (* [a+], greedy *)
| Bol              (* [^] *)
| Eol.             (* [$]: at the end, or before a final newline *)

Section Regex.
Context `{UnicodeData}.

(** What [\d] matches. *)
Definition is_digit (c : N) : bool :=
  if c <? 128 then in_range 48 57 c else unicode_decimal c.

Definition atom_matches (a : atom) (c : N) : bool :=
  match a with
  | Lit d => c =? d
  | AnyChar => negb (c =? chr_newline)
  | Digit => is_digit c
  end.

(** [match_items p bos s]: the length of the match of [p] at the start
    of [s], if there is one; [bos] tells whether [s] starts the subject
    string. *)
Fixpoint match_items (p : list item) (bos : bool) (s : str) {struct p}
  : option nat :=
  match p with
  | [] => Some 0%nat
  | One a :: p' =>
    match s with
    | c :: s' => if atom_matches a c then S <$> match_items p' false s' else None
    | [] => None
    end
  | Many1 a :: p' =>
    (* [more s]: one [a] has been taken, [s] follows: take as many more
       as possible, giving some back while the rest does not match *)
    let fix more (s : str) : option nat :=
      match s with
      | c :: s' =>
        if atom_matches a c
        then match more s' with
             | Some n => Some (S n)
             | None => match_items p' false s
             end
        else match_items p' false s
      | [] => match_items p' false []
      end in
    match s with
    | c :: s' => if atom_matches a c then S <$> more s' else None
    | [] => None
    end
  | Bol :: p' => if bos then match_items p' bos s else None
  | Eol :: p' =>
    match s with
    | [] => match_items p' bos s
    | [c] => if c =? chr_newline then match_items p' bos s else None
    | _ => None
    end
  end.

(** [re.match(p, s)] as a truth value. *)
Definition re_match (p : list item) (s : str) : bool :=
  bool_decide (is_Some (match_items p true s)).

(** The scan of [re.findall]: [skip] characters of [s] belong to the
    match found last and are passed over; after them a match is tried at
    every position, and the next match starts where the last one ends.
    (Every pattern of the script consumes at least one character, so no
    match is empty.) *)
Fixpoint findall_from (p : list item) (bos : bool) (skip : nat) (s : str)
  : list str :=
  match skip with
  | S k =>
    match s with
    | [] => []
    | _ :: s' => findall_from p false k s'
    end
  | O =>
    match match_items p bos s with
    | Some n =>
      take n s :: match s with
                  | [] => []
                  | _ :: s' => findall_from p false (pred n) s'
                  end
    | None =>
      match s with
      | [] => []
      | _ :: s' => findall_from p false 0%nat s'
      end
    end
  end.

(** [re.findall(p, s)] for a pattern without groups. *)
Definition re_findall (p : list item) (s : str) : list str :=
  findall_from p true 0%nat s.
End Regex.

(** The characters with a meaning of their own in a pattern:
    [. ^ $ * + ? { } [ ] \ | ( )]. *)
Definition re_special (c : N) : bool :=
  bool_decide (c ∈ [46; 94; 36; 42; 43; 63; 123; 125; 91; 93; 92; 124; 40; 41]).

(** The compilation of a pattern text, for the texts of the fragment: an
    ordinary character stands for itself, a dot for any character; a text
    with another special character is outside the fragment ([None]). *)
Fixpoint compile_plain (s : str) : option (list item) :=
  match s with
  | [] => Some []
  | c :: s' =>
    if c =? 46 then cons (One AnyChar) <$> compile_plain s'
    else if re_special c then None
    else cons (One (Lit c)) <$> compile_plain s'
  end.

(** ["#[\d]+"] *)
Definition pr_pattern : list item := [One (Lit chr_hash); Many1 Digit].

(** [f"{jira_project_key}-[\d]+"]: the key is part of the pattern text. *)
Definition issue_pattern (jira_project_key : str) : option (list item) :=
  p ← compile_plain jira_project_key; Some (p ++ [One (Lit chr_hyphen); Many1 Digit]).

(** ["^v\d+\.\d+\.\d+$"] *)
Definition version_pattern : list item :=
  [Bol; One (Lit 118); Many1 Digit; One (Lit 46); Many1 Digit;
   One (Lit 46); Many1 Digit; Eol].

(** ** The outside world *)

(** A [urllib.request.Request]: [req_method] is the [method=] argument,
    when there is one. *)
Record request := {
  req_url : str;
  req_data : option bytes;
  req_method : option str;
  req_headers : list (str * str)
}.

(** What [urlopen] followed by [read] gives: the body of a successful
    response, an [HTTPError] carrying the status and the error body, or
    another [URLError]. *)
Inductive http_reply :=
| Response (body : bytes)
| ErrorResponse (code : N) (body : bytes)
| NoResponse.

(** What [subprocess.check_output] gives: the output of a command that
    exited with status 0, [CalledProcessError] for another status, or an
    [OSError] when the command could not be started. *)
Inductive proc_reply :=
| Output (out : bytes)
| Failed (returncode : Z)
| NotStarted.

(** Everything the script does not define itself: the services it talks
    to, as a state machine over [World], and the library functions whose
    results it only passes on.
    - [json_loads]: [json.loads] of a text, [None] when it raises
      [JSONDecodeError];
    - [decode_detected b]: the text [json.loads] reads from bytes,
      [b.decode(detect_encoding(b), "surrogatepass")], [None] when that
      raises [UnicodeDecodeError];
    - [json_dumps j]: [json.dumps(j).encode("utf-8")];
    - [b64encode b]: [base64.b64encode(b).decode("ascii")];
    - [url_has_type u]: whether [Request(u)] accepts the URL (it raises
      [ValueError] for a URL without a scheme);
    - [date_today w]: [date.today().isoformat()]. *)
Class Platform := {
  World : Type;
  urlopen : World -> request -> World * http_reply;
  check_output : World -> list str -> World * proc_reply;
  date_today : World -> str;
  json_loads : str -> option json;
  decode_detected : bytes -> option str;
  json_dumps : json -> bytes;
  b64encode : bytes -> str;
  url_has_type : str -> bool
}.

(** What a [print] of the script shows: a line of text, or a line that
    ends with the display of a list. *)
Inductive message :=
| Line (text : str)
| LineWithList (text : str) (l : list str).

(** The observable steps of a run, in order. *)
Inductive event :=
| EvHttp (req : request)
| EvGit (argv : list str)
| EvPrint (m : message).

(** ** The monad of the script *)

Section Monad.
Context `{Platform}.

Record state := { world : World; trace : list event }.

Definition M (A : Type) : Type := state -> state * outcome A.

#[export] Instance M_ret : MRet M := fun A a st => (st, Ok a).

#[export] Instance M_bind : MBind M := fun A B f m st =>
  match m st with
  | (st', Ok a) => f a st'
  | (st', Raise e) => (st', Raise e)
  end.

Definition lift {A} (o : outcome A) : M A := fun st => (st, o).

Definition raise {A} (e : exn) : M A := lift (Raise e).

Definition record (ev : event) (st : state) : state :=
  {| world := world st; trace := trace st ++ [ev] |}.

(** [print(text)] *)
Definition print (text : str) : M unit :=
  fun st => (record (EvPrint (Line text)) st, Ok tt).

Definition print_list (text : str) (l : list str) : M unit :=
  fun st => (record (EvPrint (LineWithList text l)) st, Ok tt).

(** [with urllib.request.urlopen(req) as response: response.read()] *)
Definition http (req : request) : M bytes := fun st =>
  let (w, reply) := urlopen (world st) req in
  let st' := {| world := w; trace := trace st ++ [EvHttp req] |} in
  match reply with
  | Response body => (st', Ok body)
  | ErrorResponse code body => (st', Raise (HTTPError code body))
  | NoResponse => (st', Raise URLError)
  end.

(** [subprocess.check_output(argv)] *)
Definition git (argv : list str) : M bytes := fun st =>
  let (w, reply) := check_output (world st) argv in
  let st' := {| world := w; trace := trace st ++ [EvGit argv] |} in
  match reply with
  | Output out => (st', Ok out)
  | Failed rc => (st', Raise (CalledProcessError rc))
  | NotStarted => (st', Raise OSError)
  end.

(** [date.today().isoformat()] *)
Definition today : M str := fun st => (st, Ok (date_today (world st))).

(** [try: body  except urllib.error.HTTPError as e: handler] *)
Definition try_except_HTTPError {A} (body : M A) (handler : N -> bytes -> M A)
  : M A := fun st =>
  match body st with
  | (st', Raise (HTTPError code err)) => handler code err st'
  | r => r
  end.

(** [try: body  except subprocess.CalledProcessError: pass] *)
Definition try_except_CalledProcessError (body : M unit) : M unit := fun st =>
  match body st with
  | (st', Raise (CalledProcessError _)) => (st', Ok tt)
  | r => r
  end.

(** [for x in l: f(x)] *)
Fixpoint for_each {A} (f : A -> M unit) (l : list A) : M unit :=
  match l with
  | [] => mret tt
  | x :: l' => f x ;; for_each f l'
  end.

(** The comprehension [[f(x) for x in l]] when [f] can raise. *)
Fixpoint map_outcome {A B} (f : A -> outcome B) (l : list A) : outcome (list B) :=
  match l with
  | [] => Ok []
  | x :: l' =>
    match f x with
    | Raise e => Raise e
    | Ok y => match map_outcome f l' with
              | Raise e => Raise e
              | Ok ys => Ok (y :: ys)
              end
    end
  end.
End Monad.

(** [json.loads(b)] for bytes [b]: the bytes are decoded, then the text is
    parsed; either step can fail, with its own exception. *)
Definition loads_bytes `{Platform} (b : bytes) : outcome json :=
  match decode_detected b with
  | None => Raise UnicodeDecodeError
  | Some text => of_option JSONDecodeError (json_loads text)
  end.

(** What [json.loads(b)] returns, when it returns. *)
Definition json_loads_bytes `{Platform} (b : bytes) : option json :=
  decode_detected b ≫= json_loads.

(** ** The script *)

(** The [self] of [class Jira]; [project] is [JNull] (Python's [None])
    until [load_project] stores the project record. *)
Record Jira := {
  project_key : str;
  email : str;
  api_key : str;
  project : json;
  jira_url : str
}.

(** The [self] of [class Github]. *)
Record Github := {
  token : str;
  repo_owner : str;
  repo_name : str
}.

(** The command line after [parser.parse_args()]; [arg_version] is [None]
    when [--version] is not given. *)
Record Args := {
  arg_jira_project_key : str;
  arg_github_token : str;
  arg_github_repo_owner : str;
  arg_github_repo_name : str;
  arg_jira_email : str;
  arg_jira_api_key : str;
  arg_jira_url : str;
  arg_version : option str
}.

Definition already_exists_message : str :=
  lit "A version with this name already exists in this project.".

Section Script.
Context `{UnicodeData} `{Platform}.

(** [Jira.__init__] *)
Definition Jira_init (project_key email api_key jira_url : str) : Jira :=
  {| project_key := project_key; email := email; api_key := api_key;
     project := JNull; jira_url := jira_url |}.

(** [Github.__init__] *)
Definition Github_init (repo_owner repo_name token : str) : Github :=
  {| token := token; repo_owner := repo_owner; repo_name := repo_name |}.

(** [urllib.request.Request(url, data, method=method)] *)
Definition Request (url : str) (data : option bytes) (method : option str)
  : outcome request :=
  if url_has_type url
  then Ok {| req_url := url; req_data := data; req_method := method;
             req_headers := [] |}
  else Raise ValueError.

(** [req.add_header(name, value)] *)
Definition add_header (name value : str) (req : request) : request :=
  {| req_url := req_url req; req_data := req_data req;
     req_method := req_method req;
     req_headers := req_headers req ++ [(name, value)] |}.

(** [Jira.add_jira_auth] *)
Definition add_jira_auth (self : Jira) (req : request) : outcome request :=
  match ascii_encode (email self ++ lit ":" ++ api_key self) with
  | None => Raise UnicodeEncodeError
  | Some credentials =>
    Ok (add_header (lit "Content-Type") (lit "application/json")
         (add_header (lit "Accept") (lit "application/json")
           (add_header (lit "Authorization")
              (lit "Basic " ++ b64encode credentials) req)))
  end.

(** [Jira.load_project]: the updated [self]; the method's return value is
    its [project]. *)
Definition load_project (self : Jira) : M Jira :=
  req ← lift (Request (jira_url self ++ lit "/rest/api/2/project/" ++ project_key self)
                None None);
  req ← lift (add_jira_auth self req);
  body ← http req;
  p ← lift (loads_bytes body);
  mret {| project_key := project_key self; email := email self;
          api_key := api_key self; project := p; jira_url := jira_url self |}.

(** The document [add_fix_version_to_issue] sends. *)
Definition fix_version_update (version : str) : json :=
  JObj [(lit "update",
         JObj [(lit "fixVersions",
                JArr [JObj [(lit "add", JObj [(lit "name", JStr version)])]])])].

(** The request [add_fix_version_to_issue] builds. *)
Definition fix_version_request (self : Jira) (issue_id version : str)
  : outcome request :=
  match Request (jira_url self ++ lit "/rest/api/2/issue/" ++ issue_id)
          (Some (json_dumps (fix_version_update version))) (Some (lit "PUT")) with
  | Raise e => Raise e
  | Ok req => add_jira_auth self req
  end.

(** [Jira.add_fix_version_to_issue] *)
Definition add_fix_version_to_issue (self : Jira) (issue_id version : str)
  : M unit :=
  print (lit "mark issue " ++ issue_id ++ lit " fixed by this version");;
  req ← lift (fix_version_request self issue_id version);
  _ ← http req;
  mret tt.

(** The document [assert_version] sends. *)
Definition version_payload (day version : str) (project_id : json) : json :=
  JObj [(lit "archived", JBool false);
        (lit "releaseDate", JStr day);
        (lit "name", JStr version);
        (lit "projectId", project_id);
        (lit "released", JBool true)].

(** The request [assert_version] builds; [self.project["id"]] is read
    while the payload is put together. *)
Definition version_request (self : Jira) (day version : str) : outcome request :=
  match subscript (project self) (lit "id") with
  | Raise e => Raise e
  | Ok project_id =>
    match Request (jira_url self ++ lit "/rest/api/2/version")
            (Some (json_dumps (version_payload day version project_id))) None with
    | Raise e => Raise e
    | Ok req => add_jira_auth self req
    end
  end.

(** The [except] clause of [assert_version]. *)
Definition version_error_handler (code : N) (body : bytes) : M unit :=
  text ← lift (of_option UnicodeDecodeError (utf8_decode body));
  response ← lift (of_option JSONDecodeError (json_loads text));
  errors ← lift (dict_get response (lit "errors") (JObj []));
  name ← lift (dict_get errors (lit "name") JNull);
  match name with
  | JStr s =>
    if decide (s = already_exists_message)
    then print (lit "version is already on Jira, moving on")
    else mret tt
  | _ => mret tt
  end.

(** [Jira.assert_version] *)
Definition assert_version (self : Jira) (version : str) : M unit :=
  print (lit "get or create version " ++ version ++ lit " for " ++ project_key self);;
  day ← today;
  req ← lift (version_request self day version);
  try_except_HTTPError
    (body ← http req;
     _ ← lift (loads_bytes body);
     mret tt)
    version_error_handler.

(** [re.findall(pattern, string)] with a pattern text that may lie
    outside the fragment and a subject that may not be a string. *)
Definition findall_in (pattern : option (list item)) (subject : json)
  : outcome (list str) :=
  match pattern, subject with
  | None, _ => Raise PatternOutsideModel
  | Some p, JStr s => Ok (re_findall p s)
  | Some _, _ => Raise TypeError
  end.

(** The body of the [with] block of [get_jira_id_from_pr]: the ids in
    the title, then those in the branch name. *)
Definition jira_ids_of_pr_data (jira_project_key : str) (data : json)
  : outcome (list str) :=
  match subscript data (lit "title") with
  | Raise e => Raise e
  | Ok title =>
    match findall_in (issue_pattern jira_project_key) title with
    | Raise e => Raise e
    | Ok in_title =>
      match subscript data (lit "head") with
      | Raise e => Raise e
      | Ok head =>
        match subscript head (lit "ref") with
        | Raise e => Raise e
        | Ok ref =>
          match findall_in (issue_pattern jira_project_key) ref with
          | Raise e => Raise e
          | Ok in_ref => Ok ([] ++ in_title ++ in_ref)
          end
        end
      end
    end
  end.

(** The request [get_jira_id_from_pr] builds. *)
Definition pr_request (self : Github) (pr_id : str) : outcome request :=
  match ascii_encode (token self ++ lit ":") with
  | None => Raise UnicodeEncodeError
  | Some credentials =>
    match Request (lit "https://api.github.com/repos/" ++ repo_owner self
                   ++ lit "/" ++ repo_name self ++ lit "/pulls/" ++ pr_id)
            None None with
    | Raise e => Raise e
    | Ok req =>
      Ok (add_header (lit "Authorization") (lit "Basic " ++ b64encode credentials) req)
    end
  end.

(** [Github.get_jira_id_from_pr] *)
Definition get_jira_id_from_pr (self : Github) (jira_project_key pr_id : str)
  : M (list str) :=
  req ← lift (pr_request self pr_id);
  body ← http req;
  data ← lift (loads_bytes body);
  lift (jira_ids_of_pr_data jira_project_key data).
End Script.

(** [l.index(x)]: the position of the first [x], [ValueError] without
    one. *)
Fixpoint list_index (x : str) (l : list str) : outcome nat :=
  match l with
  | [] => Raise ValueError
  | y :: l' =>
    if decide (y = x) then Ok 0%nat
    else match list_index x l' with
         | Ok i => Ok (S i)
         | Raise e => Raise e
         end
  end.

(** [l[i]] for an index that is not negative. *)
Definition list_item {A} (l : list A) (i : nat) : outcome A :=
  of_option IndexError (l !! i).

(** The first two comprehensions of [find_previous_version_tag]: the
    lines of the output of [git tag], decoded, without those that contain
    a hyphen. *)
Definition candidate_tags (output : bytes) : outcome (list str) :=
  match map_outcome (fun t => of_option UnicodeDecodeError (utf8_decode t))
          (split_on byte_newline output) with
  | Raise e => Raise e
  | Ok tags => Ok (filter (fun t => chr_hyphen ∉ t) tags)
  end.

(** [list(set(l))]: the distinct elements of [l], in the order in which a
    set happens to enumerate them. *)
Definition list_of_set (l : list str) : list str :=
  elements (list_to_set l : gset (list N)).

Section Pipeline.
Context `{UnicodeData} `{Platform}.

(** The rest of [find_previous_version_tag], once [tags] is known. *)
Definition previous_in (tags : list str) (version : str) : M (option str) :=
  if decide (version ∉ tags) then
    print (version ++ lit " not found in current list of tags");;
    mret None
  else
    i ← lift (list_index version tags);
    if decide (length tags ≤ i)%nat then mret None
    else
      previous ← lift (list_item tags (i + 1));
      mret (Some previous).

(** The command line of [find_previous_version_tag]. *)
Definition tag_command : list str :=
  [lit "git"; lit "tag"; lit "--sort"; lit "-v:refname"; lit "-l"; lit "v[0-9]*"].

(** [find_previous_version_tag] *)
Definition find_previous_version_tag (version : str) : M (option str) :=
  out ← git tag_command;
  tags ← lift (candidate_tags (strip out));
  previous_in tags version.

(** The comprehension of [list_merged_prs]:
    [[t.split("#")[1] for t in re.findall(r"#[\d]+", logs)]]. *)
Definition pr_ids_in (logs : str) : outcome (list str) :=
  map_outcome (fun t => list_item (split_on chr_hash t) 1)
    (re_findall pr_pattern logs).

(** The command line of [list_merged_prs]. *)
Definition log_command (prev_version version : str) : list str :=
  [lit "git"; lit "log"; prev_version ++ lit "..." ++ version;
   lit "--grep"; lit "#"; lit "--grep"; lit "]"].

(** [list_merged_prs] *)
Definition list_merged_prs (prev_version version : str) : M (list str) :=
  print (lit "listing all merged PRs between " ++ prev_version ++ lit " and "
         ++ version);;
  out ← git (log_command prev_version version);
  logs ← lift (of_option UnicodeDecodeError (utf8_decode (strip out)));
  lift (pr_ids_in logs).

(** The two [try] blocks at the start of [main]. *)
Definition best_effort_fetch (flag : str) : M unit :=
  try_except_CalledProcessError
    (print (lit "git fetch " ++ flag);;
     out ← git [lit "git"; lit "fetch"; flag];
     text ← lift (of_option UnicodeDecodeError (utf8_decode out));
     print text).

(** Lines 166 to 172: the version given on the command line, or else the
    one [git describe] reports. *)
Definition resolve_version (args : Args) : M str :=
  match arg_version args with
  | Some (c :: v) => mret (c :: v)
  | _ =>
    out ← git [lit "git"; lit "describe"; lit "--tags"];
    lift (of_option UnicodeDecodeError (utf8_decode (strip out)))
  end.

(** The loop of lines 192 to 194: [jira_issue_ids += ...] for every pull
    request. *)
Fixpoint collect_jira_ids (github : Github) (jira_project_key : str)
    (merged_prs : list str) (jira_issue_ids : list str) : M (list str) :=
  match merged_prs with
  | [] => mret jira_issue_ids
  | pr_id :: rest =>
    found ← get_jira_id_from_pr github jira_project_key pr_id;
    collect_jira_ids github jira_project_key rest (jira_issue_ids ++ found)
  end.

(** Lines 176 to 199 of [main]: everything between the check of the
    version and the final loop.  The result is what the final loop
    works on. *)
Definition prepare_release (args : Args) (version : str)
  : M (Jira * list str) :=
  let github := Github_init (arg_github_repo_owner args)
                  (arg_github_repo_name args) (arg_github_token args) in
  let jira := Jira_init (arg_jira_project_key args) (arg_jira_email args)
                (arg_jira_api_key args) (arg_jira_url args) in
  jira ← load_project jira;
  found ← find_previous_version_tag version;
  prev_version ←
    match found with
    | None =>
      print (lit "did not find a version before " ++ version
             ++ lit ", fall back to last 100 commits");;
      mret (version ++ lit "~100")
    | Some prev_version => mret prev_version
    end;
  merged_prs ← list_merged_prs prev_version version;
  print (lit "Merged Pull Requests: " ++ join (lit ", ") merged_prs);;
  jira_issue_ids ← collect_jira_ids github (arg_jira_project_key args) merged_prs [];
  let jira_issue_ids := list_of_set jira_issue_ids in
  print_list (lit "found these Jira IDs for this release ") jira_issue_ids;;
  assert_version jira version;;
  mret (jira, jira_issue_ids).

(** The final loop of [main], lines 201 and 202. *)
Definition attach_all (jira : Jira) (version : str) (jira_issue_ids : list str)
  : M unit :=
  for_each (fun issue_id => add_fix_version_to_issue jira issue_id version)
    jira_issue_ids.

(** Lines 152 to 172 of [main]: the two fetches, then the version. *)
Definition startup (args : Args) : M str :=
  best_effort_fetch (lit "--unshallow");;
  best_effort_fetch (lit "--tags");;
  resolve_version args.

(** [main], after the command line has been parsed. *)
Definition main (args : Args) : M unit :=
  version ← startup args;
  if negb (re_match version_pattern version) then mret tt
  else
    '(jira, jira_issue_ids) ← prepare_release args version;
    attach_all jira version jira_issue_ids.
End Pipeline.

(** ** What the specification says [list_merged_prs] returns *)

Section PrNumbers.
Context `{UnicodeData}.

(** The digits at the start of a text. *)
Fixpoint digit_run (s : str) : str :=
  match s with
  | c :: s' => if is_digit c then c :: digit_run s' else []
  | [] => []
  end.

(** Following the specification's words, not the code: the numeric part
    of every token made of a [#] and the digits after it, from left to
    right, each occurrence counted. *)
Fixpoint pr_numbers_spec (s : str) : list str :=
  match s with
  | [] => []
  | c :: s' =>
    if c =? chr_hash
    then match digit_run s' with
         | [] => pr_numbers_spec s'
         | ds => ds :: pr_numbers_spec s'
         end
    else pr_numbers_spec s'
  end.
End PrNumbers.

(** ** What git does with the filters of [list_merged_prs]

    Modelled from git's documentation (git-log, the options [--grep] and
    [--all-match]); git itself is no part of the script.  "With more than
    one [--grep], commits whose message matches any of the given patterns
    are chosen", unless [--all-match] is given, which "limits the commits
    output to ones that match all given [--grep]".  The patterns are basic
    regular expressions; the two the script gives, ["#"] and ["]"], are
    ordinary characters there, so that matching is containment. *)






(** ** A scripted platform

    A small instance of the two classes, on which the script can be run:
    the services answer with the replies queued in the world, one per
    call, and [json.loads] knows the documents of [demo_documents]. *)

#[export] Instance ascii_digits : UnicodeData := {| unicode_decimal := fun _ => false |}.

Definition quoted (s : str) : str := [34] ++ s ++ [34].

(** The JSON text of a document (no character of the documents used here
    needs an escape). *)
Fixpoint demo_dumps (j : json) : str :=
  match j with
  | JNull => lit "null"
  | JBool true => lit "true"
  | JBool false => lit "false"
  | JNum repr => repr
  | JStr s => quoted s
  | JArr items => lit "[" ++ join (lit ", ") (List.map demo_dumps items) ++ lit "]"
  | JObj fields =>
    lit "{"
    ++ join (lit ", ")
         (List.map (fun kv => quoted (fst kv) ++ lit ": " ++ demo_dumps (snd kv)) fields)
    ++ lit "}"
  end.

Definition pr_document (title ref : string) : json :=
  JObj [(lit "title", JStr (lit title)); (lit "head", JObj [(lit "ref", JStr (lit ref))])].

Definition demo_documents : list json :=
  [ JObj [(lit "id", JStr (lit "10000")); (lit "key", JStr (lit "ABC"))];
    JObj [];
    JObj [(lit "errorMessages", JArr []);
          (lit "errors", JObj [(lit "name", JStr already_exists_message)])];
    JObj [(lit "errorMessages", JArr [JStr (lit "You do not have permission to create versions.")]);
          (lit "errors", JObj [])];
    pr_document "Fix ABC-123 and ABC-124" "main";
    pr_document "Implements ABC-5" "main";
    pr_document "Cleanup" "feature/ABC-6-thing";
    pr_document "More on ABC-5" "ABC-5-again" ].

Definition demo_loads (text : str) : option json :=
  List.find (fun j => bool_decide (demo_dumps j = text)) demo_documents.

Definition demo_bytes (s : str) : bytes := default [] (ascii_encode s).

#[export] Instance scripted : Platform := {|
  World := list http_reply * list proc_reply;
  urlopen w _ :=
    match fst w with
    | reply :: replies => ((replies, snd w), reply)
    | [] => (w, NoResponse)
    end;
  check_output w _ :=
    match snd w with
    | reply :: replies => ((fst w, replies), reply)
    | [] => (w, NotStarted)
    end;
  date_today _ := lit "2020-02-28";
  json_loads := demo_loads;
  decode_detected := utf8_decode;
  json_dumps j := demo_bytes (demo_dumps j);
  b64encode b := List.map Byte.to_N b;
  url_has_type u := bool_decide (58 ∈ u)
|}.

Definition demo_args (version : option str) : Args :=
  {| arg_jira_project_key := lit "ABC";
     arg_github_token := lit "token";
     arg_github_repo_owner := lit "GetStream";
     arg_github_repo_name := lit "ci-utils";
     arg_jira_email := lit "bot@example.com";
     arg_jira_api_key := lit "secret";
     arg_jira_url := lit "https://example.atlassian.net";
     arg_version := version |}.

Definition body_of (j : json) : bytes := demo_bytes (demo_dumps j).

Definition demo_start (https : list http_reply) (gits : list proc_reply) : state :=
  {| world := (https, gits); trace := [] |}.

(** A run of the whole script on the scripted platform: the tag [v1.5.0]
    follows [v1.0.0], four pull requests were merged in between, and the
    tracker refuses the second attachment. *)

Definition project_document : json :=
  JObj [(lit "id", JStr (lit "10000")); (lit "key", JStr (lit "ABC"))].

Definition permission_document : json :=
  JObj [(lit "errorMessages",
         JArr [JStr (lit "You do not have permission to create versions.")]);
        (lit "errors", JObj [])].

Definition exists_document : json :=
  JObj [(lit "errorMessages", JArr []);
        (lit "errors", JObj [(lit "name", JStr already_exists_message)])].

Definition demo_tags : bytes := blit "v2.0.0
v1.5.0
v1.5.0-beta
v1.0.0
".

Definition demo_log : bytes := blit "commit 3
    [ABC-5] one (#10)
commit 2
    [ABC-6] two (#11)
commit 1
    [ABC-5] more (#12)
commit 0
    [ABC-123] fix (#13)
".

Definition demo_run : state :=
  demo_start
    [ Response (body_of project_document);
      Response (body_of (pr_document "Implements ABC-5" "main"));
      Response (body_of (pr_document "Cleanup" "feature/ABC-6-thing"));
      Response (body_of (pr_document "More on ABC-5" "ABC-5-again"));
      Response (body_of (pr_document "Fix ABC-123 and ABC-124" "main"));
      Response (body_of (JObj []));
      Response (blit "");
      ErrorResponse 404 (blit "no such issue") ]
    [ Failed 128; Output (blit "ok"); Output (blit "v1.5.0
"); Output demo_tags; Output demo_log ].

Definition demo_version : str := lit "v1.5.0".

(** The [Jira] object of the run once the project is loaded. *)
Definition demo_jira : Jira :=
  {| project_key := lit "ABC"; email := lit "bot@example.com";
     api_key := lit "secret"; project := project_document;
     jira_url := lit "https://example.atlassian.net" |}.

Definition demo_github : Github :=
  Github_init (lit "GetStream") (lit "ci-utils") (lit "token").

(** The states of the run after [startup] and after [prepare_release]. *)
Definition demo_started : state := fst (startup (demo_args None) demo_run).

Definition demo_prepared : state :=
  fst (prepare_release (demo_args None) demo_version demo_started).

(** The request of an outcome that is known to hold one. *)
Definition built (o : outcome request) : request :=
  match o with
  | Ok req => req
  | Raise _ => {| req_url := []; req_data := None; req_method := None;
                  req_headers := [] |}
  end.

(** A tracker that answers the creation of the version with [reply]. *)
Definition demo_tracker (reply : http_reply) : state := demo_start [reply] [].

(** ** Vocabulary of the statements *)

Section Observations.
Context `{UnicodeData} `{Platform}.

(** The first line [assert_version] prints. *)
Definition version_banner (self : Jira) (version : str) : event :=
  EvPrint (Line (lit "get or create version " ++ version ++ lit " for "
                 ++ project_key self)).

(** The state in which [assert_version] has shown its banner and sent
    [req], and the tracker has moved to [w]. *)
Definition version_sent (self : Jira) (version : str) (req : request)
    (w : World) (st : state) : state :=
  {| world := w; trace := trace st ++ [version_banner self version; EvHttp req] |}.

(** What the [errors] entry of an error body says about the name, when
    the body is an object: [d.get("errors", {}).get("name")]. *)
Definition reported_name (fields : list (str * json)) : outcome json :=
  match dict_get (JObj fields) (lit "errors") (JObj []) with
  | Raise e => Raise e
  | Ok errors => dict_get errors (lit "name") JNull
  end.
(** [r] is the project key, a hyphen and at least one digit. *)
Definition is_issue_id (jira_project_key r : str) : Prop :=
  exists ds, ds <> [] /\ Forall (fun c => is_digit c = true) ds
             /\ r = jira_project_key ++ chr_hyphen :: ds.

(** [r] is a substring of [s]. *)
Definition occurs_in (r s : str) : Prop :=
  exists before after, s = before ++ r ++ after.

(** The pattern of a project key that is to be taken literally. *)
Definition literal_issue_pattern (jira_project_key : str) : list item :=
  List.map (fun c => One (Lit c)) jira_project_key
  ++ [One (Lit chr_hyphen); Many1 Digit].

(** The texts of the form [v<digits>.<digits>.<digits>], with or without a
    newline at the end. *)
Definition is_release_tag (s : str) : Prop :=
  exists major minor patch tail,
    (major <> [] /\ minor <> [] /\ patch <> [])
    /\ Forall (fun c => is_digit c = true) (major ++ minor ++ patch)
    /\ (tail = [] \/ tail = [chr_newline])
    /\ s = 118 :: major ++ 46 :: minor ++ 46 :: patch ++ tail.

(** A pattern that cannot start at a digit. *)
Definition stops_digits (p : list item) : Prop :=
  forall c s, is_digit c = true -> match_items p false (c :: s) = None.

(** An event that is no call to a REST service. *)
Definition no_http_call (ev : event) : Prop := forall req, ev <> EvHttp req.

(** A piece of the script that calls no REST service. *)
Definition offline {A} (m : M A) : Prop :=
  forall st st' r, m st = (st', r) ->
    exists evs, trace st' = trace st ++ evs /\ Forall no_http_call evs.

(** What one round of the final loop leaves in the trace: the line it
    prints and, when the request can be built, the request. *)
Definition attach_trace (jira : Jira) (version : str) (issue_ids : list str)
  : list event :=
  flat_map (fun issue_id =>
       EvPrint (Line (lit "mark issue " ++ issue_id ++ lit " fixed by this version"))
       :: match fix_version_request jira issue_id version with
          | Ok req => [EvHttp req]
          | Raise _ => []
          end)
    issue_ids.
End Observations.

(** ** More vocabulary *)

(** Whether a JSON value is a [dict]. *)
Definition is_dict (j : json) : bool :=
  match j with JObj _ => true | _ => false end.

(** Whether an event is a call to a REST service. *)
Definition is_http_call (ev : event) : bool :=
  match ev with EvHttp _ => true | _ => false end.

(** The line [assert_version] prints for a version that exists. *)
Definition already_there : event :=
  EvPrint (Line (lit "version is already on Jira, moving on")).

(** The lower bound of the log when [find_previous_version_tag] has
    returned [found]. *)
Definition chosen_lower_bound (version : str) (found : option str) : str :=
  match found with
  | None => version ++ lit "~100"
  | Some prev_version => prev_version
  end.

Section MoreObservations.
Context `{UnicodeData} `{Platform}.

(** The state after [main] has chosen that lower bound: it says so when
    it falls back. *)
Definition after_choice (version : str) (found : option str) (st : state) : state :=
  match found with
  | None =>
    record (EvPrint (Line (lit "did not find a version before " ++ version
                           ++ lit ", fall back to last 100 commits"))) st
  | Some _ => st
  end.

(** The state after [main] has printed the pull requests it found. *)
Definition after_listing (merged_prs : list str) (st : state) : state :=
  record (EvPrint (Line (lit "Merged Pull Requests: " ++ join (lit ", ") merged_prs))) st.

(** The [Jira] and [Github] objects [main] builds from the command
    line. *)
Definition jira_of (args : Args) : Jira :=
  Jira_init (arg_jira_project_key args) (arg_jira_email args)
    (arg_jira_api_key args) (arg_jira_url args).

Definition github_of (args : Args) : Github :=
  Github_init (arg_github_repo_owner args) (arg_github_repo_name args)
    (arg_github_token args).

(** The request [load_project] builds. *)
Definition project_request (self : Jira) : outcome request :=
  match Request (jira_url self ++ lit "/rest/api/2/project/" ++ project_key self)
          None None with
  | Raise e => Raise e
  | Ok req => add_jira_auth self req
  end.

(** The state in which [main] has printed the ids it found. *)
Definition after_found (ids : list str) (st : state) : state :=
  record (EvPrint (LineWithList (lit "found these Jira IDs for this release ") ids)) st.

(** The lookups of the pull requests [merged_prs], one after the other
    from the state [st]: they return [founds], in this order, and leave
    the state [st']. *)
Fixpoint lookups (github : Github) (jira_project_key : str)
    (merged_prs : list str) (st : state) (founds : list (list str)) (st' : state)
  : Prop :=
  match merged_prs, founds with
  | [], [] => st' = st
  | pr_id :: merged_prs', found :: founds' =>
    exists st1,
      get_jira_id_from_pr github jira_project_key pr_id st = (st1, Ok found)
      /\ lookups github jira_project_key merged_prs' st1 founds' st'
  | _, _ => False
  end.

(** A piece of the script that only adds to the trace. *)
Definition grows {A} (m : M A) : Prop :=
  forall st, exists evs, trace (fst (m st)) = trace st ++ evs.
End MoreObservations.

(** ** More runs on the scripted platform *)

Definition demo_git_replies : list proc_reply :=
  [ Failed 128; Output (blit "ok"); Output (blit "v1.5.0
"); Output demo_tags; Output demo_log ].

(** The code host does not know the second pull request. *)
Definition demo_run_lost_pr : state :=
  demo_start
    [ Response (body_of project_document);
      Response (body_of (pr_document "Implements ABC-5" "main"));
      ErrorResponse 404 (blit "Not Found") ]
    demo_git_replies.

(** Every call succeeds. *)
Definition demo_run_complete : state :=
  demo_start
    [ Response (body_of project_document);
      Response (body_of (pr_document "Implements ABC-5" "main"));
      Response (body_of (pr_document "Cleanup" "feature/ABC-6-thing"));
      Response (body_of (pr_document "More on ABC-5" "ABC-5-again"));
      Response (body_of (pr_document "Fix ABC-123 and ABC-124" "main"));
      Response (body_of (JObj []));
      Response (blit ""); Response (blit ""); Response (blit ""); Response (blit "") ]
    demo_git_replies.

(** The tag asked for is the only one, and nothing was merged. *)
Definition demo_run_first_release : state :=
  demo_start
    [ Response (body_of project_document); Response (body_of (JObj [])) ]
    [ Failed 128; Output (blit "ok"); Output (blit "v1.5.0
"); Output (blit "v2.0.0
"); Output (blit "commit 1
    first commit
") ].

(** The tracker refuses the credentials. *)
Definition demo_run_refused : state :=
  demo_start [ ErrorResponse 401 (blit "Unauthorized") ] demo_git_replies.

(** A command line whose Jira account has an accent in its name. *)
Definition demo_args_accent : Args :=
  {| arg_jira_project_key := lit "ABC";
     arg_github_token := lit "token";
     arg_github_repo_owner := lit "GetStream";
     arg_github_repo_name := lit "ci-utils";
     arg_jira_email := [114; 233; 109; 105] ++ lit "@example.com";
     arg_jira_api_key := lit "secret";
     arg_jira_url := lit "https://example.atlassian.net";
     arg_version := Some demo_version |}.

(** The state of a run after each step of [main]. *)
Definition after_startup (st : state) : state := fst (startup (demo_args None) st).

Definition after_load (st : state) : state :=
  fst (load_project (jira_of (demo_args None)) (after_startup st)).

Definition after_tags (st : state) : state :=
  fst (find_previous_version_tag demo_version (after_load st)).

Definition after_log (found : option str) (st : state) : state :=
  fst (list_merged_prs (chosen_lower_bound demo_version found) demo_version
         (after_choice demo_version found (after_tags st))).

Definition after_prepare (st : state) : state :=
  fst (prepare_release (demo_args None) demo_version (after_startup st)).

(** The scripted platform with another choice of the documents that
    [json.loads] knows. *)
Definition scripted_knowing (documents : list json) : Platform := {|
  World := list http_reply * list proc_reply;
  urlopen w _ :=
    match fst w with
    | reply :: replies => ((replies, snd w), reply)
    | [] => (w, NoResponse)
    end;
  check_output w _ :=
    match snd w with
    | reply :: replies => ((fst w, replies), reply)
    | [] => (w, NotStarted)
    end;
  date_today _ := lit "2020-02-28";
  json_loads text :=
    List.find (fun j => bool_decide (demo_dumps j = text)) documents;
  decode_detected := utf8_decode;
  json_dumps j := demo_bytes (demo_dumps j);
  b64encode b := List.map Byte.to_N b;
  url_has_type u := bool_decide (58 ∈ u)
|}.

(** A proxy that answers with a JSON list. *)
Definition demo_proxy : @state (scripted_knowing [JArr []]) :=
  @Build_state (scripted_knowing [JArr []])
    ([ErrorResponse 500 (body_of (JArr []))], []) [].

(** * Properties *)

(** ** Running the monad *)

Section MonadFacts.
Context `{Platform}.

Lemma bind_ok {A B} (m : M A) (f : A -> M B) st st' a :
  m st = (st', Ok a) -> (m ≫= f) st = f a st'.
Proof. intros Hm. unfold mbind, M_bind. by rewrite Hm. Qed.

Lemma bind_raise {A B} (m : M A) (f : A -> M B) st st' e :
  m st = (st', Raise e) -> (m ≫= f) st = (st', Raise e).
Proof. intros Hm. unfold mbind, M_bind. by rewrite Hm. Qed.

Lemma bind_inv_ok {A B} (m : M A) (f : A -> M B) st st' b :
  (m ≫= f) st = (st', Ok b) ->
  exists st1 a, m st = (st1, Ok a) /\ f a st1 = (st', Ok b).
Proof.
  unfold mbind, M_bind. destruct (m st) as [st1 [a|e]]; [eauto | discriminate].
Qed.

Lemma lift_inv_ok {A} (o : outcome A) st st' a :
  lift o st = (st', Ok a) -> st' = st /\ o = Ok a.
Proof. unfold lift. by intros [= -> ->]. Qed.

(** A run is known by its outcome, the state reached being whatever it
    is. *)
Lemma run_outcome {A} (m : M A) st r :
  snd (m st) = r -> m st = (fst (m st), r).
Proof. intros <-. by destruct (m st). Qed.

Lemma loads_bytes_ok b j :
  json_loads_bytes b = Some j -> loads_bytes b = Ok j.
Proof.
  unfold json_loads_bytes, loads_bytes.
  destruct (decode_detected b) as [text|]; simpl; [|done]. by intros ->.
Qed.

Lemma loads_bytes_inv b j :
  loads_bytes b = Ok j -> json_loads_bytes b = Some j.
Proof.
  unfold json_loads_bytes, loads_bytes.
  destruct (decode_detected b) as [text|]; simpl; [|done].
  by destruct (json_loads text); intros [= ->].
Qed.

Lemma http_response req st w body :
  urlopen (world st) req = (w, Response body) ->
  http req st = ({| world := w; trace := trace st ++ [EvHttp req] |}, Ok body).
Proof. intros Hu. unfold http. by rewrite Hu. Qed.

Lemma http_error req st w code body :
  urlopen (world st) req = (w, ErrorResponse code body) ->
  http req st = ({| world := w; trace := trace st ++ [EvHttp req] |},
                 Raise (HTTPError code body)).
Proof. intros Hu. unfold http. by rewrite Hu. Qed.

Lemma git_output argv st w out :
  check_output (world st) argv = (w, Output out) ->
  git argv st = ({| world := w; trace := trace st ++ [EvGit argv] |}, Ok out).
Proof. intros Hc. unfold git. by rewrite Hc. Qed.
End MonadFacts.

(** ** [assert_version] *)

Section AssertVersion.
Context `{UnicodeData} `{Platform}.

(** When the request cannot be built, nothing is sent. *)
Lemma assert_version_not_built self version st e :
  version_request self (date_today (world st)) version = Raise e ->
  assert_version self version st
  = (record (version_banner self version) st, Raise e).
Proof.
  intros Hreq. unfold assert_version, print, today, mbind, M_bind; simpl.
  unfold lift. by rewrite Hreq.
Qed.

(** An HTTP error hands the error body to the [except] clause. *)
Lemma assert_version_http_error self version st req w code body :
  version_request self (date_today (world st)) version = Ok req ->
  urlopen (world st) req = (w, ErrorResponse code body) ->
  assert_version self version st
  = version_error_handler code body (version_sent self version req w st).
Proof.
  intros Hreq Hu.
  unfold assert_version, print, today, mbind, M_bind, try_except_HTTPError, http, lift.
  simpl. rewrite Hreq, Hu. unfold version_sent. by rewrite <- app_assoc.
Qed.

(** X1.  The first half of what the specification says about HTTP errors:
    the "already exists" error is reported on the output and is not an
    error of the run. *)
Lemma assert_version_already_exists self version st req w code body text fields errs :
  version_request self (date_today (world st)) version = Ok req ->
  urlopen (world st) req = (w, ErrorResponse code body) ->
  utf8_decode body = Some text ->
  json_loads text = Some (JObj fields) ->
  obj_get (lit "errors") fields = Some (JObj errs) ->
  obj_get (lit "name") errs = Some (JStr already_exists_message) ->
  assert_version self version st
  = (record (EvPrint (Line (lit "version is already on Jira, moving on")))
       (version_sent self version req w st), Ok tt).
Proof.
  intros Hreq Hu Htext Hjson Herrors Hname.
  rewrite (assert_version_http_error _ _ _ _ _ _ _ Hreq Hu).
  unfold version_error_handler, mbind, M_bind, lift.
  rewrite Htext; simpl. rewrite Hjson; simpl.
  rewrite Herrors. simpl. rewrite Hname. simpl.
  reflexivity.
Qed.

(** C1.  An HTTP error whose JSON body is an object that reports
    anything but the "already exists" name error does not propagate
    either: [assert_version] returns normally, without a word on the
    output.  The [except] clause has no [else: raise]. *)
Theorem assert_version_swallows_other_http_errors
    self version st req w code body text fields name :
  version_request self (date_today (world st)) version = Ok req ->
  urlopen (world st) req = (w, ErrorResponse code body) ->
  utf8_decode body = Some text ->
  json_loads text = Some (JObj fields) ->
  reported_name fields = Ok name ->
  name <> JStr already_exists_message ->
  assert_version self version st = (version_sent self version req w st, Ok tt).
Proof.
  intros Hreq Hu Htext Hjson Hname Hother.
  rewrite (assert_version_http_error _ _ _ _ _ _ _ Hreq Hu).
  unfold version_error_handler, mbind, M_bind, lift.
  rewrite Htext; simpl. rewrite Hjson; simpl.
  unfold reported_name in Hname. simpl in Hname. rewrite Hname.
  destruct name as [| | |s| |]; try reflexivity.
  destruct (decide (s = already_exists_message)) as [->|]; [by destruct Hother | done].
Qed.

(** C10.  When the body of the HTTP error is not a JSON text (it is not
    UTF-8, or [json.loads] rejects it), [assert_version] raises the
    decoding error right after the request: the error is not taken for
    "already exists". *)
Theorem assert_version_raises_on_non_json_error_body
    self version st req w code body :
  version_request self (date_today (world st)) version = Ok req ->
  urlopen (world st) req = (w, ErrorResponse code body) ->
  utf8_decode body ≫= json_loads = None ->
  exists e, (e = UnicodeDecodeError \/ e = JSONDecodeError)
    /\ assert_version self version st
       = (version_sent self version req w st, Raise e).
Proof.
  intros Hreq Hu Hbody.
  rewrite (assert_version_http_error _ _ _ _ _ _ _ Hreq Hu).
  unfold version_error_handler, mbind, M_bind, lift.
  destruct (utf8_decode body) as [text|]; simpl in *.
  - rewrite Hbody. simpl. eauto.
  - eauto.
Qed.
End AssertVersion.

(** ** [load_project] before [assert_version] *)

Section ProjectId.
Context `{UnicodeData} `{Platform}.

(** A successful [load_project] caches the record the tracker sent and
    changes nothing else in [self]. *)
Lemma load_project_ok self st st' self' :
  load_project self st = (st', Ok self') ->
  exists req w body,
    urlopen (world st) req = (w, Response body)
    /\ json_loads_bytes body = Some (project self')
    /\ jira_url self' = jira_url self /\ project_key self' = project_key self
    /\ email self' = email self /\ api_key self' = api_key self.
Proof.
  unfold load_project. intros Hload.
  apply bind_inv_ok in Hload as (s1 & req0 & [-> _]%lift_inv_ok & Hload).
  apply bind_inv_ok in Hload as (s2 & req & [-> _]%lift_inv_ok & Hload).
  apply bind_inv_ok in Hload as (s3 & body & Hhttp & Hload).
  apply bind_inv_ok in Hload as (s4 & p & [-> Hp]%lift_inv_ok & Hload).
  injection Hload as _ <-. simpl.
  unfold http in Hhttp.
  destruct (urlopen (world st) req) as [w [b|c b|]] eqn:Hu; try discriminate.
  injection Hhttp as _ <-.
  apply loads_bytes_inv in Hp.
  by exists req, w, b.
Qed.

(** After the request has been built and sent, [assert_version] only
    prints. *)
Lemma assert_version_sends_first self version st req :
  version_request self (date_today (world st)) version = Ok req ->
  exists st' r evs,
    assert_version self version st = (st', r)
    /\ trace st' = trace st ++ [version_banner self version; EvHttp req] ++ evs.
Proof.
  intros Hreq.
  assert (Hsent : forall w (r : outcome ()), exists st' r' evs,
             (version_sent self version req w st, r) = (st', r')
             /\ trace st' = trace st ++ [version_banner self version; EvHttp req] ++ evs).
  { intros w r. by exists (version_sent self version req w st), r, []. }
  destruct (urlopen (world st) req) as [w reply] eqn:Hu.
  destruct reply as [body|code body|].
  - unfold assert_version, print, today, mbind, M_bind, try_except_HTTPError, http, lift.
    simpl. rewrite Hreq, Hu, <- app_assoc.
    unfold loads_bytes.
    destruct (decode_detected body) as [text|]; [destruct (json_loads text)|];
      simpl; apply Hsent.
  - rewrite (assert_version_http_error _ _ _ _ _ _ _ Hreq Hu).
    unfold version_error_handler, mbind, M_bind, lift.
    destruct (utf8_decode body) as [text|]; simpl; [|apply Hsent].
    destruct (json_loads text) as [response|]; simpl; [|apply Hsent].
    destruct (dict_get response _ _) as [errors|]; [|apply Hsent].
    destruct (dict_get errors _ _) as [name|]; [|apply Hsent].
    destruct name as [| | |s| |]; try apply Hsent.
    destruct (decide _); [|apply Hsent].
    eexists _, _, [_]. split; [reflexivity|].
    simpl. by rewrite <- app_assoc.
  - unfold assert_version, print, today, mbind, M_bind, try_except_HTTPError, http, lift.
    simpl. rewrite Hreq, Hu, <- app_assoc. apply Hsent.
Qed.

(** C9.  With the [Jira] object as [__init__] leaves it, [assert_version]
    fails with a [TypeError] after its banner and sends nothing.  Once
    [load_project] has cached a record that has an [id], the payload of
    the request [assert_version] builds carries that [id] as
    [projectId], the cached record is the one the tracker returned, and
    the request is the first thing sent. *)
Theorem assert_version_needs_loaded_project
    key mail secret url st0 st1 self version st project_id req :
  load_project (Jira_init key mail secret url) st0 = (st1, Ok self) ->
  subscript (project self) (lit "id") = Ok project_id ->
  version_request self (date_today (world st)) version = Ok req ->
  let unloaded := Jira_init key mail secret url in
  let payload := version_payload (date_today (world st)) version project_id in
  assert_version unloaded version st
    = (record (version_banner unloaded version) st, Raise TypeError)
  /\ req_data req = Some (json_dumps payload)
  /\ subscript payload (lit "projectId") = Ok project_id
  /\ (exists body, json_loads_bytes body = Some (project self))
  /\ exists st' r evs,
       assert_version self version st = (st', r)
       /\ trace st' = trace st ++ [version_banner self version; EvHttp req] ++ evs.
Proof.
  intros Hload Hid Hreq unloaded payload.
  split; [|split; [|split; [|split]]].
  - by apply assert_version_not_built.
  - unfold version_request in Hreq. rewrite Hid in Hreq.
    unfold Request in Hreq. destruct (url_has_type _); [|discriminate].
    unfold add_jira_auth in Hreq. destruct (ascii_encode _); [|discriminate].
    by injection Hreq as <-.
  - reflexivity.
  - apply load_project_ok in Hload as (_ & _ & body & _ & Hbody & _). eauto.
  - by apply assert_version_sends_first.
Qed.
End ProjectId.

(** ** [find_previous_version_tag] *)

Section PreviousTag.
Context `{UnicodeData} `{Platform}.

Lemma list_index_first (front : list str) x rest :
  x ∉ front -> list_index x (front ++ x :: rest) = Ok (length front).
Proof.
  induction front as [|y front IH]; simpl; intros Hx.
  - by rewrite decide_True.
  - apply not_elem_of_cons in Hx as [Hne Hx].
    rewrite decide_False by done. by rewrite IH.
Qed.

(** A version that is not among the tags: the function reports it and
    returns [None]. *)
Lemma previous_in_absent tags version st :
  version ∉ tags ->
  previous_in tags version st
  = (record (EvPrint (Line (version ++ lit " not found in current list of tags"))) st,
     Ok None).
Proof. intros Habs. unfold previous_in. by rewrite decide_True. Qed.

(** A version with an older tag after it: the function returns that
    tag. *)
Lemma previous_in_next front version next rest st :
  version ∉ front ->
  previous_in (front ++ version :: next :: rest) version st = (st, Ok (Some next)).
Proof.
  intros Hfront. unfold previous_in.
  rewrite decide_False by (intros Habs; apply Habs; set_solver).
  unfold mbind, M_bind, lift. rewrite list_index_first by done.
  rewrite decide_False by (rewrite length_app; simpl; lia).
  unfold list_item. replace (length front + 1)%nat with (length front + 1 + 0)%nat by lia.
  rewrite <- Nat.add_assoc. rewrite lookup_app_r by lia.
  replace (length front + (1 + 0) - length front)%nat with 1%nat by lia. done.
Qed.

(** The oldest tag: the index found is the last one, the guard
    [len(tags) <= i] lets it through, and [tags[i + 1]] is out of
    range. *)
Lemma previous_in_oldest front version st :
  version ∉ front ->
  previous_in (front ++ [version]) version st = (st, Raise IndexError).
Proof.
  intros Hfront. unfold previous_in.
  rewrite decide_False by (intros Habs; apply Habs; set_solver).
  unfold mbind, M_bind, lift. rewrite list_index_first by done.
  rewrite decide_False by (rewrite length_app; simpl; lia).
  unfold list_item. rewrite lookup_ge_None_2; [done|].
  rewrite length_app. simpl. lia.
Qed.

Lemma find_previous_version_tag_run version st w out tags :
  check_output (world st) tag_command = (w, Output out) ->
  candidate_tags (strip out) = Ok tags ->
  find_previous_version_tag version st
  = previous_in tags version {| world := w; trace := trace st ++ [EvGit tag_command] |}.
Proof.
  intros Hgit Htags. unfold find_previous_version_tag.
  rewrite (bind_ok _ _ _ _ _ (git_output _ _ _ _ Hgit)).
  unfold mbind at 1, M_bind, lift. by rewrite Htags.
Qed.

(** C2.  When the version asked for is the last of the candidate tags,
    [find_previous_version_tag] does not return [None]: it raises
    [IndexError]. *)
Theorem find_previous_version_tag_oldest_raises version st w out front :
  check_output (world st) tag_command = (w, Output out) ->
  candidate_tags (strip out) = Ok (front ++ [version]) ->
  version ∉ front ->
  find_previous_version_tag version st
  = ({| world := w; trace := trace st ++ [EvGit tag_command] |}, Raise IndexError).
Proof.
  intros Hgit Htags Hfront.
  rewrite (find_previous_version_tag_run _ _ _ _ _ Hgit Htags).
  by apply previous_in_oldest.
Qed.

(** X5.  The two other cases of the specification hold.  When the version
    has an older candidate after it, [find_previous_version_tag] returns
    that candidate. *)
Lemma find_previous_version_tag_next version st w out front next rest :
  check_output (world st) tag_command = (w, Output out) ->
  candidate_tags (strip out) = Ok (front ++ version :: next :: rest) ->
  version ∉ front ->
  find_previous_version_tag version st
  = ({| world := w; trace := trace st ++ [EvGit tag_command] |}, Ok (Some next)).
Proof.
  intros Hgit Htags Hfront.
  rewrite (find_previous_version_tag_run _ _ _ _ _ Hgit Htags).
  by apply previous_in_next.
Qed.

(** X6.  When the version is not among the candidates,
    [find_previous_version_tag] returns [None]. *)
Lemma find_previous_version_tag_absent version st w out tags :
  check_output (world st) tag_command = (w, Output out) ->
  candidate_tags (strip out) = Ok tags ->
  version ∉ tags ->
  snd (find_previous_version_tag version st) = Ok None.
Proof.
  intros Hgit Htags Habs.
  rewrite (find_previous_version_tag_run _ _ _ _ _ Hgit Htags).
  by rewrite previous_in_absent.
Qed.

(** C8.  The tags among which the version is looked up are the decoded
    lines of the output of [git tag] that contain no hyphen: no
    candidate contains one, so ["v1.0.0-beta"] is never a candidate. *)
Theorem candidate_tags_have_no_hyphen version st w out tags :
  check_output (world st) tag_command = (w, Output out) ->
  candidate_tags (strip out) = Ok tags ->
  Forall (fun t => chr_hyphen ∉ t) tags
  /\ (lit "v1.0.0-beta" ∉ tags)
  /\ (exists lines,
        map_outcome (fun t => of_option UnicodeDecodeError (utf8_decode t))
          (split_on byte_newline (strip out)) = Ok lines
        /\ forall t, t ∈ tags <-> (t ∈ lines /\ chr_hyphen ∉ t))
  /\ find_previous_version_tag version st
     = previous_in tags version
         {| world := w; trace := trace st ++ [EvGit tag_command] |}.
Proof.
  intros Hgit Htags.
  assert (Hfilter : exists lines,
             map_outcome (fun t => of_option UnicodeDecodeError (utf8_decode t))
               (split_on byte_newline (strip out)) = Ok lines
             /\ tags = filter (fun t => chr_hyphen ∉ t) lines).
  { unfold candidate_tags in Htags.
    destruct (map_outcome _ _) as [lines|]; [|discriminate].
    injection Htags as <-. eauto. }
  destruct Hfilter as (lines & Hlines & ->).
  assert (Hall : Forall (fun t => chr_hyphen ∉ t) (filter (fun t => chr_hyphen ∉ t) lines)).
  { apply Forall_forall. intros t Ht. by apply list_elem_of_filter in Ht as [? _]. }
  split; [done|]. split.
  - intros Hbeta. rewrite Forall_forall in Hall. apply (Hall _ Hbeta).
    vm_compute. set_solver.
  - split; [|exact (find_previous_version_tag_run _ _ _ _ _ Hgit Htags)].
    exists lines. split; [done|]. intros t. rewrite list_elem_of_filter. tauto.
Qed.
End PreviousTag.

(** ** [list_merged_prs] *)

Section MergedPrs.
Context `{UnicodeData} `{Platform}.

Lemma hash_is_no_digit c : is_digit c = true -> c <> chr_hash.
Proof. by intros Hd ->. Qed.

Lemma digit_run_digits s : Forall (fun c => is_digit c = true) (digit_run s).
Proof.
  induction s as [|c s IH]; simpl; [constructor|].
  destruct (is_digit c) eqn:Hc; by constructor.
Qed.

Lemma take_digit_run s : take (length (digit_run s)) s = digit_run s.
Proof.
  induction s as [|c s IH]; simpl; [done|].
  destruct (is_digit c); simpl; by rewrite ?IH.
Qed.

(** [[\d]+] at the end of a pattern takes the whole run of digits. *)
Lemma match_digits bos s :
  match_items [Many1 Digit] bos s
  = match digit_run s with
    | [] => None
    | ds => Some (length ds)
    end.
Proof.
  destruct s as [|c s]; simpl; [done|].
  destruct (is_digit c); [|done]. simpl.
  match goal with
  | |- S <$> ?more s = _ =>
    assert (Hmore : forall t, more t = Some (length (digit_run t)))
  end.
  { intros t. induction t as [|d t IH]; simpl; [done|].
    destruct (is_digit d); [|done]. by rewrite IH. }
  by rewrite Hmore.
Qed.

Lemma match_pr_pattern bos s :
  match_items pr_pattern bos s
  = match s with
    | c :: s' =>
      if c =? chr_hash
      then match digit_run s' with
           | [] => None
           | ds => Some (S (length ds))
           end
      else None
    | [] => None
    end.
Proof.
  unfold pr_pattern. destruct s as [|c s]; [done|].
  change (match_items (One (Lit chr_hash) :: [Many1 Digit]) bos (c :: s))
    with (if c =? chr_hash then S <$> match_items [Many1 Digit] false s else None).
  rewrite match_digits. destruct (c =? chr_hash); [|done].
  by destruct (digit_run s).
Qed.

(** [t.split("#")[1]] of a token [#digits] is [digits]. *)
Lemma split_token ds :
  Forall (fun c => is_digit c = true) ds ->
  list_item (split_on chr_hash (chr_hash :: ds)) 1 = Ok ds.
Proof.
  intros Hds. cbn [split_on]. rewrite decide_True by done.
  assert (Hsplit : split_on chr_hash ds = [ds]).
  { induction Hds as [|c ds Hc _ IH]; simpl; [done|].
    rewrite decide_False by by apply hash_is_no_digit.
    by rewrite IH. }
  by rewrite Hsplit.
Qed.

(** The scan of the code and the reading of the specification agree,
    also in the middle of a token. *)
Lemma pr_ids_scan s : forall bos skip,
  (skip <= length s)%nat ->
  Forall (fun c => is_digit c = true) (take skip s) ->
  map_outcome (fun t => list_item (split_on chr_hash t) 1)
    (findall_from pr_pattern bos skip s)
  = Ok (pr_numbers_spec s).
Proof.
  induction s as [|c s IH]; intros bos skip Hlen Hskip.
  - destruct skip; [done | simpl in Hlen; lia].
  - destruct skip as [|k].
    + cbn [findall_from]. rewrite match_pr_pattern. cbn [pr_numbers_spec].
      destruct (c =? chr_hash) eqn:Hc.
      * apply N.eqb_eq in Hc as ->.
        destruct (digit_run s) as [|d ds] eqn:Hrun.
        { apply (IH false 0%nat); [lia | constructor]. }
        cbn [map_outcome pred].
        assert (Htoken : take (S (length (d :: ds))) (chr_hash :: s)
                         = chr_hash :: d :: ds).
        { cbn [take]. f_equal. rewrite <- Hrun. apply take_digit_run. }
        rewrite Htoken, split_token by (rewrite <- Hrun; apply digit_run_digits).
        rewrite (IH false (length (d :: ds))); [done | |].
        -- rewrite <- Hrun, <- (take_digit_run s). rewrite length_take. lia.
        -- rewrite <- Hrun, take_digit_run. apply digit_run_digits.
      * apply (IH false 0%nat); [lia | constructor].
    + cbn [findall_from pr_numbers_spec].
      simpl in Hskip, Hlen. apply Forall_cons in Hskip as [Hc Hskip].
      apply hash_is_no_digit in Hc. apply N.eqb_neq in Hc. rewrite Hc.
      apply (IH false k); [lia | done].
Qed.

Lemma pr_ids_in_spec logs : pr_ids_in logs = Ok (pr_numbers_spec logs).
Proof. unfold pr_ids_in, re_findall. apply pr_ids_scan; [lia | constructor]. Qed.





Example pr_numbers_spec_demo :
  pr_numbers_spec (lit "[ABC-5] one (#10) two (#11), see #10 and # 7 #x")
  = [lit "10"; lit "11"; lit "10"].
Proof. reflexivity. Qed.
End MergedPrs.


(** ** [get_jira_id_from_pr] *)

Section IssueIds.
Context `{UnicodeData} `{Platform}.

Lemma compile_plain_literal key :
  Forall (fun c => re_special c = false) key ->
  compile_plain key = Some (List.map (fun c => One (Lit c)) key).
Proof.
  induction 1 as [|c key Hc _ IH]; simpl; [done|].
  destruct (c =? 46) eqn:Hdot.
  - apply N.eqb_eq in Hdot as ->. discriminate.
  - by rewrite Hc, IH.
Qed.

Lemma issue_pattern_literal key :
  Forall (fun c => re_special c = false) key ->
  issue_pattern key = Some (literal_issue_pattern key).
Proof. intros Hkey. unfold issue_pattern. by rewrite compile_plain_literal. Qed.

(** A match of the literal pattern is the key, a hyphen and digits. *)
Lemma match_literal_issue key : forall bos s n,
  match_items (literal_issue_pattern key) bos s = Some n ->
  is_issue_id key (take n s).
Proof.
  unfold literal_issue_pattern.
  induction key as [|k key IH]; intros bos s n Hm.
  - destruct s as [|c s]; [discriminate Hm|].
    assert (Hm' : (if c =? chr_hyphen
                   then S <$> match_items [Many1 Digit] false s else None) = Some n)
      by exact Hm.
    clear Hm. rename Hm' into Hm.
    destruct (c =? chr_hyphen) eqn:Hc; [|done]. apply N.eqb_eq in Hc as ->.
    rewrite match_digits in Hm.
    pose proof (take_digit_run s) as Htake.
    pose proof (digit_run_digits s) as Hdigits.
    destruct (digit_run s) as [|d ds]; [done|].
    injection Hm as <-. exists (d :: ds). split; [done|]. split; [done|].
    simpl. f_equal. exact Htake.
  - destruct s as [|c s]; [discriminate Hm|].
    cbn [List.map app match_items atom_matches] in Hm.
    destruct (c =? k) eqn:Hc; [|done]. apply N.eqb_eq in Hc as ->.
    destruct (match_items _ false s) as [m|] eqn:Hrest; [|done].
    injection Hm as <-. apply IH in Hrest as (ds & Hne & Hds & Htake).
    exists ds. split; [done|]. split; [done|]. cbn [take app]. by rewrite Htake.
Qed.

(** Every element [re.findall] returns is a match of the pattern at
    some position of the subject. *)
Lemma findall_from_matches p s : forall bos skip r,
  r ∈ findall_from p bos skip s ->
  exists before t bos' n,
    s = before ++ t /\ match_items p bos' t = Some n /\ r = take n t.
Proof.
  assert (Hshift : forall c (s' : str) r,
    (exists before t bos' n,
        s' = before ++ t /\ match_items p bos' t = Some n /\ r = take n t) ->
    exists before t bos' n,
      c :: s' = before ++ t /\ match_items p bos' t = Some n /\ r = take n t).
  { intros c s' r (before & t & bos' & n & -> & Hm & ->).
    by exists (c :: before), t, bos', n. }
  induction s as [|c s IH]; intros bos skip r Hr.
  - destruct skip; cbn [findall_from] in Hr; [|by apply elem_of_nil in Hr].
    destruct (match_items p bos []) as [n|] eqn:Hm; [|by apply elem_of_nil in Hr].
    apply list_elem_of_singleton in Hr as ->. by exists [], [], bos, n.
  - destruct skip as [|k]; cbn [findall_from] in Hr.
    + destruct (match_items p bos (c :: s)) as [n|] eqn:Hm.
      * apply elem_of_cons in Hr as [->|Hr].
        -- by exists [], (c :: s), bos, n.
        -- apply Hshift. by apply IH in Hr.
      * apply Hshift. by apply IH in Hr.
    + apply Hshift. by apply IH in Hr.
Qed.

Lemma findall_literal_issue key s r :
  r ∈ re_findall (literal_issue_pattern key) s ->
  is_issue_id key r /\ occurs_in r s.
Proof.
  intros Hr. apply findall_from_matches in Hr as (before & t & bos & n & -> & Hm & ->).
  split; [by eapply match_literal_issue|].
  exists before, (drop n t). by rewrite take_drop.
Qed.

Lemma get_jira_id_from_pr_run self key pr_id st req w body data :
  pr_request self pr_id = Ok req ->
  urlopen (world st) req = (w, Response body) ->
  json_loads_bytes body = Some data ->
  get_jira_id_from_pr self key pr_id st
  = ({| world := w; trace := trace st ++ [EvHttp req] |},
     jira_ids_of_pr_data key data).
Proof.
  intros Hreq Hu Hdata.
  unfold get_jira_id_from_pr, mbind, M_bind, lift, http.
  by rewrite Hreq, Hu, (loads_bytes_ok _ _ Hdata).
Qed.

(** C6, amended.  For a project key without special characters of
    regular expressions, [get_jira_id_from_pr] returns the matches of
    [key-digits] in the title followed by those in the branch name;
    every one of them is the key as given (in its own case), a hyphen
    and digits, and occurs in the field it comes from.  The title
    ["Fix ABC-123 and ABC-124"] gives ["ABC-123"] and ["ABC-124"] for
    the key ["ABC"], and a key in another case gives nothing. *)
Theorem get_jira_id_from_pr_finds_key_digits
    self key pr_id st req w body data title head ref :
  Forall (fun c => re_special c = false) key ->
  pr_request self pr_id = Ok req ->
  urlopen (world st) req = (w, Response body) ->
  json_loads_bytes body = Some data ->
  subscript data (lit "title") = Ok (JStr title) ->
  subscript data (lit "head") = Ok head ->
  subscript head (lit "ref") = Ok (JStr ref) ->
  let in_title := re_findall (literal_issue_pattern key) title in
  let in_ref := re_findall (literal_issue_pattern key) ref in
  get_jira_id_from_pr self key pr_id st
    = ({| world := w; trace := trace st ++ [EvHttp req] |}, Ok (in_title ++ in_ref))
  /\ (forall r, r ∈ in_title -> is_issue_id key r /\ occurs_in r title)
  /\ (forall r, r ∈ in_ref -> is_issue_id key r /\ occurs_in r ref)
  /\ jira_ids_of_pr_data (lit "ABC") (pr_document "Fix ABC-123 and ABC-124" "main")
     = Ok [lit "ABC-123"; lit "ABC-124"]
  /\ jira_ids_of_pr_data (lit "ABC") (pr_document "Fix abc-123 and Abc-124" "aBC-5")
     = Ok [].
Proof.
  intros Hkey Hreq Hu Hdata Htitle Hhead Href in_title in_ref.
  split; [|split; [|split; [|split]]].
  - rewrite (get_jira_id_from_pr_run _ _ _ _ _ _ _ _ Hreq Hu Hdata).
    unfold jira_ids_of_pr_data.
    rewrite Htitle, Hhead, Href, issue_pattern_literal by done. done.
  - intros r. apply findall_literal_issue.
  - intros r. apply findall_literal_issue.
  - reflexivity.
  - reflexivity.
Qed.
End IssueIds.

(** C6 as stated fails: the project key is pasted into the pattern, so a
    key with a special character matches texts that are not the key.  With
    the key ["A.C"], the title ["Fix ABC-1"] yields ["ABC-1"]. *)
Lemma project_key_is_read_as_a_pattern :
  ~ (forall (key : str) (data : json) (ids : list str),
        jira_ids_of_pr_data key data = Ok ids -> Forall (is_issue_id key) ids).
Proof.
  intros Hall.
  specialize (Hall (lit "A.C") (pr_document "Fix ABC-1" "main") [lit "ABC-1"] eq_refl).
  apply Forall_cons in Hall as [(ds & _ & _ & Heq) _].
  vm_compute in Heq. discriminate.
Qed.

(** ** The pattern of release tags *)

Section VersionPattern.
Context `{UnicodeData}.

(** [\d+] before such a pattern takes the whole run of digits: giving
    digits back never helps. *)
Lemma match_digits_then p bos s :
  stops_digits p ->
  match_items (Many1 Digit :: p) bos s
  = match digit_run s with
    | [] => None
    | ds => (fun n => length ds + n)%nat
              <$> match_items p false (drop (length ds) s)
    end.
Proof.
  intros Hstop. destruct s as [|c s]; [done|].
  cbn [match_items atom_matches digit_run].
  destruct (is_digit c) eqn:Hc; [|done].
  match goal with
  | |- S <$> ?more s = _ =>
    assert (Hmore : forall t, more t
              = (fun n => length (digit_run t) + n)%nat
                  <$> match_items p false (drop (length (digit_run t)) t))
  end.
  { intros t. induction t as [|d t IH]; cbn [digit_run].
    - cbn [length drop]. destruct (match_items p false []); simpl; done.
    - destruct (is_digit d) eqn:Hd.
      + rewrite IH, (Hstop d t Hd). cbn [length drop].
        destruct (match_items p false (drop (length (digit_run t)) t)); simpl; done.
      + cbn [length drop]. destruct (match_items p false (d :: t)); simpl; done. }
  rewrite Hmore. cbn [length drop]. destruct (match_items p false (drop (length (digit_run s)) s)); simpl; done.
Qed.

Lemma dot_stops_digits p : stops_digits (One (Lit 46) :: p).
Proof.
  intros c s Hc. cbn [match_items atom_matches].
  destruct (c =? 46) eqn:Hdot; [|done]. by apply N.eqb_eq in Hdot as ->.
Qed.

Lemma eol_stops_digits : stops_digits [Eol].
Proof.
  intros c s Hc. cbn [match_items].
  destruct s; [|done]. destruct (c =? chr_newline) eqn:Hnl; [|done].
  by apply N.eqb_eq in Hnl as ->.
Qed.

Lemma digit_run_app ds s :
  Forall (fun c => is_digit c = true) ds ->
  digit_run (ds ++ s) = ds ++ digit_run s.
Proof. induction 1 as [|c ds Hc _ IH]; simpl; [done|]. by rewrite Hc, IH. Qed.

Lemma digit_run_stop ds c s :
  Forall (fun c => is_digit c = true) ds -> is_digit c = false ->
  digit_run (ds ++ c :: s) = ds.
Proof.
  intros Hds Hc. rewrite digit_run_app by done. simpl. by rewrite Hc, app_nil_r.
Qed.

Lemma drop_digit_run s : digit_run s ++ drop (length (digit_run s)) s = s.
Proof. by rewrite <- (take_digit_run s) at 1; rewrite take_drop. Qed.

Lemma matches_digits_then p bos s :
  stops_digits p ->
  is_Some (match_items (Many1 Digit :: p) bos s)
  <-> digit_run s <> []
      /\ is_Some (match_items p false (drop (length (digit_run s)) s)).
Proof.
  intros Hstop. rewrite match_digits_then by done.
  destruct (digit_run s) as [|d ds].
  - split; [by intros [? ?] | by intros [? _]].
  - rewrite fmap_is_Some. split; [by intros ? | by intros [_ ?]].
Qed.

Lemma matches_lit c p bos s :
  is_Some (match_items (One (Lit c) :: p) bos s)
  <-> exists s', s = c :: s' /\ is_Some (match_items p false s').
Proof.
  destruct s as [|d s]; cbn [match_items atom_matches].
  - split; [by intros [? ?] | by intros (? & ? & _)].
  - destruct (d =? c) eqn:Hd.
    + apply N.eqb_eq in Hd as ->. rewrite fmap_is_Some.
      split; [by exists s | by intros (? & [= <-] & ?)].
    + apply N.eqb_neq in Hd.
      split; [by intros [? ?] | by intros (? & [= ? _] & _)].
Qed.

Lemma matches_eol bos s :
  is_Some (match_items [Eol] bos s) <-> s = [] \/ s = [chr_newline].
Proof.
  destruct s as [|c [|d s]]; cbn [match_items].
  - split; [by left | by exists 0%nat].
  - destruct (c =? chr_newline) eqn:Hc.
    + apply N.eqb_eq in Hc as ->. split; [by right | by exists 0%nat].
    + apply N.eqb_neq in Hc.
      split; [by intros [? ?] | by intros [?|[= ?]]].
  - split; [by intros [? ?] | by intros [?|?]].
Qed.

(** X21.  What ["^v\d+\.\d+\.\d+$"] accepts: [v], digits, a dot, digits,
    a dot, digits, and then nothing or one newline. *)
Lemma version_pattern_matches s :
  re_match version_pattern s = true <-> is_release_tag s.
Proof.
  unfold re_match. rewrite bool_decide_eq_true. unfold version_pattern.
  change (match_items (Bol :: ?p) true s) with (match_items p true s).
  rewrite matches_lit. split.
  - intros (s1 & -> & H1).
    apply matches_digits_then in H1 as [Hmajor H1]; [|apply dot_stops_digits].
    apply matches_lit in H1 as (s2 & Hs1 & H2).
    apply matches_digits_then in H2 as [Hminor H2]; [|apply dot_stops_digits].
    apply matches_lit in H2 as (s3 & Hs2 & H3).
    apply matches_digits_then in H3 as [Hpatch H3]; [|apply eol_stops_digits].
    apply matches_eol in H3.
    exists (digit_run s1), (digit_run s2), (digit_run s3),
      (drop (length (digit_run s3)) s3).
    split; [done|]. split; [|split; [done|]].
    + rewrite !Forall_app. auto using digit_run_digits.
    + by rewrite drop_digit_run, <- Hs2, drop_digit_run, <- Hs1, drop_digit_run.
  - intros (major & minor & patch & tail & (Ha & Hb & Hc) & Hdigits & Htail & ->).
    apply Forall_app in Hdigits as [Hmajor Hdigits].
    apply Forall_app in Hdigits as [Hminor Hpatch].
    assert (Hrun : digit_run (patch ++ tail) = patch).
    { destruct Htail as [->| ->].
      - rewrite digit_run_app by done. simpl. by rewrite app_nil_r.
      - by apply digit_run_stop. }
    eexists. split; [done|].
    rewrite matches_digits_then, digit_run_stop, drop_app_length
      by (done || apply dot_stops_digits).
    split; [done|]. rewrite matches_lit. eexists. split; [done|].
    rewrite matches_digits_then, digit_run_stop, drop_app_length
      by (done || apply dot_stops_digits).
    split; [done|]. rewrite matches_lit. eexists. split; [done|].
    rewrite matches_digits_then, Hrun, drop_app_length by apply eol_stops_digits.
    split; [done|]. by apply matches_eol.
Qed.
End VersionPattern.

(** ** The version check of [main] *)

Section VersionCheck.
Context `{UnicodeData} `{Platform}.

Lemma offline_ret {A} (a : A) : offline (mret a : M A).
Proof.
  intros st st' r [= <- _]. exists []. by rewrite app_nil_r.
Qed.

Lemma offline_lift {A} (o : outcome A) : offline (lift o).
Proof.
  intros st st' r [= <- _]. exists []. by rewrite app_nil_r.
Qed.

Lemma offline_print text : offline (print text).
Proof.
  intros st st' r [= <- _]. exists [EvPrint (Line text)].
  split; [done|]. by repeat constructor.
Qed.

Lemma offline_git argv : offline (git argv).
Proof.
  intros st st' r Hgit. unfold git in Hgit.
  destruct (check_output (world st) argv) as [w reply].
  exists [EvGit argv]. split; [|by repeat constructor].
  destruct reply; by injection Hgit as <- _.
Qed.

Lemma offline_bind {A B} (m : M A) (f : A -> M B) :
  offline m -> (forall a, offline (f a)) -> offline (m ≫= f).
Proof.
  intros Hm Hf st st' r Hrun. unfold mbind, M_bind in Hrun.
  destruct (m st) as [st1 [a|e]] eqn:Hm1.
  - apply Hm in Hm1 as (evs1 & Ht1 & Hq1).
    apply Hf in Hrun as (evs2 & Ht2 & Hq2).
    exists (evs1 ++ evs2). split; [by rewrite Ht2, Ht1, app_assoc|].
    by apply Forall_app.
  - injection Hrun as <- _. by apply Hm in Hm1.
Qed.

Lemma offline_try (m : M unit) :
  offline m -> offline (try_except_CalledProcessError m).
Proof.
  intros Hm st st' r Hrun. unfold try_except_CalledProcessError in Hrun.
  destruct (m st) as [st1 [[]|e]] eqn:Hm1.
  - injection Hrun as <- _. by apply Hm in Hm1.
  - apply Hm in Hm1. destruct e; by injection Hrun as <- _.
Qed.

Lemma offline_best_effort_fetch flag : offline (best_effort_fetch flag).
Proof.
  apply offline_try, offline_bind; [apply offline_print|]. intros _.
  apply offline_bind; [apply offline_git|]. intros out.
  apply offline_bind; [apply offline_lift|]. intros text. apply offline_print.
Qed.

Lemma offline_startup args : offline (startup args).
Proof.
  unfold startup.
  apply offline_bind; [apply offline_best_effort_fetch|]. intros _.
  apply offline_bind; [apply offline_best_effort_fetch|]. intros _.
  unfold resolve_version. destruct (arg_version args) as [[|c v]|].
  - apply offline_bind; [apply offline_git|]. intros out. apply offline_lift.
  - apply offline_ret.
  - apply offline_bind; [apply offline_git|]. intros out. apply offline_lift.
Qed.

(** C4.  When the version [main] settles on does not match
    ["^v\d+\.\d+\.\d+$"], [main] returns normally at that point, and the
    run has called neither service: until then it has only printed and
    run git.  ([version_pattern_matches] tells which texts the pattern
    accepts.) *)
Theorem main_stops_on_other_versions args st st' version :
  startup args st = (st', Ok version) ->
  re_match version_pattern version = false ->
  main args st = (st', Ok tt)
  /\ exists evs, trace st' = trace st ++ evs /\ Forall no_http_call evs.
Proof.
  intros Hstart Hno. split.
  - unfold main. rewrite (bind_ok _ _ _ _ _ Hstart). by rewrite Hno.
  - by apply offline_startup in Hstart.
Qed.

Example version_pattern_demo :
  List.map (re_match version_pattern)
    [lit "v1.2.3"; lit "v10.20.30"; lit "v1.0.0-beta"; lit "1.2.3"; lit "v1.2";
     lit "v1.2.3.4"; lit "release"; lit ""]
  = [true; true; false; false; false; false; false; false].
Proof. reflexivity. Qed.
End VersionCheck.

(** ** The final loop *)

Section Attach.
Context `{UnicodeData} `{Platform}.

Lemma attach_all_app jira version done rest st st1 :
  attach_all jira version done st = (st1, Ok tt) ->
  attach_all jira version (done ++ rest) st = attach_all jira version rest st1.
Proof.
  unfold attach_all. revert st.
  induction done as [|issue_id done IH]; intros st Hdone; simpl in *.
  - by injection Hdone as ->.
  - unfold mbind, M_bind in *.
    destruct (add_fix_version_to_issue jira issue_id version st) as [st0 [[]|e]];
      [by apply IH | discriminate].
Qed.

(** A round of the loop that succeeds has printed its line and sent its
    one request. *)
Lemma add_fix_version_ok jira issue_id version st st' :
  add_fix_version_to_issue jira issue_id version st = (st', Ok tt) ->
  trace st' = trace st ++ attach_trace jira version [issue_id].
Proof.
  unfold add_fix_version_to_issue, attach_trace, print, mbind, M_bind, lift, http.
  simpl. destruct (fix_version_request jira issue_id version) as [req|]; [|done].
  destruct (urlopen (world st) req) as [w [body|code body|]]; try done.
  intros [= <-]. simpl. by rewrite <- app_assoc.
Qed.

Lemma attach_trace_app jira version l1 l2 :
  attach_trace jira version (l1 ++ l2)
  = attach_trace jira version l1 ++ attach_trace jira version l2.
Proof. unfold attach_trace. by rewrite flat_map_app. Qed.

Lemma attach_all_ok jira version issue_ids : forall st st',
  attach_all jira version issue_ids st = (st', Ok tt) ->
  trace st' = trace st ++ attach_trace jira version issue_ids.
Proof.
  unfold attach_all.
  induction issue_ids as [|issue_id issue_ids IH]; intros st st' Hrun; simpl in Hrun.
  - injection Hrun as <-. unfold attach_trace. simpl. by rewrite app_nil_r.
  - unfold mbind, M_bind in Hrun.
    destruct (add_fix_version_to_issue jira issue_id version st) as [st0 [[]|e]] eqn:Hone;
      [|discriminate].
    apply add_fix_version_ok in Hone. apply IH in Hrun.
    rewrite Hrun, Hone, <- app_assoc.
    by rewrite (attach_trace_app _ _ [issue_id] issue_ids).
Qed.

(** C5.  When the run has reached the final loop and the tracker answers
    one attachment with an HTTP error after the attachments before it
    have succeeded, [main] ends with that error.  The tracker is left
    in the state of that last answer, and from the start of the loop the
    run has printed one line and sent one request for each issue up to
    the failing one, in order, and nothing else: none is sent again,
    none is undone, and the issues after the failing one are not
    touched. *)
Theorem failed_attachment_ends_the_run
    args st st0 version jira st1 done failed rest st2 req w code body :
  startup args st = (st0, Ok version) ->
  re_match version_pattern version = true ->
  prepare_release args version st0 = (st1, Ok (jira, done ++ failed :: rest)) ->
  attach_all jira version done st1 = (st2, Ok tt) ->
  fix_version_request jira failed version = Ok req ->
  urlopen (world st2) req = (w, ErrorResponse code body) ->
  main args st
  = ({| world := w;
        trace := trace st1 ++ attach_trace jira version (done ++ [failed]) |},
     Raise (HTTPError code body)).
Proof.
  intros Hstart Hmatch Hprep Hdone Hreq Hu.
  unfold main. rewrite (bind_ok _ _ _ _ _ Hstart), Hmatch. cbn [negb].
  rewrite (bind_ok _ _ _ _ _ Hprep).
  rewrite (attach_all_app _ _ _ _ _ _ Hdone).
  apply attach_all_ok in Hdone.
  unfold attach_all. cbn [for_each].
  unfold add_fix_version_to_issue, print, mbind, M_bind, lift, http. simpl.
  rewrite Hreq, Hu, Hdone, attach_trace_app.
  unfold attach_trace at 2. simpl. rewrite Hreq.
  by rewrite <- !app_assoc.
Qed.
End Attach.

(** ** The collection of issue ids *)

Section IssueSet.
Context `{UnicodeData} `{Platform}.

Lemma list_of_set_elem l x : x ∈ list_of_set l <-> x ∈ l.
Proof. unfold list_of_set. by rewrite elem_of_elements, elem_of_list_to_set. Qed.

Lemma list_of_set_NoDup l : NoDup (list_of_set l).
Proof. unfold list_of_set. apply NoDup_elements. Qed.

Lemma list_of_set_same l1 l2 :
  (forall x, x ∈ l1 <-> x ∈ l2) -> list_of_set l1 ≡ₚ list_of_set l2.
Proof.
  intros Hsame. apply NoDup_Permutation; try apply list_of_set_NoDup.
  intros x. by rewrite !list_of_set_elem.
Qed.

Lemma elem_of_concat (x : str) (ls : list (list str)) :
  x ∈ concat ls <-> exists l, l ∈ ls /\ x ∈ l.
Proof.
  induction ls as [|l ls IH]; simpl.
  - split; [by intros ?%elem_of_nil | by intros (? & ?%elem_of_nil & _)].
  - rewrite elem_of_app, IH. split.
    + intros [Hx|(l' & Hl' & Hx)]; [exists l | exists l']; split; try done.
      * by left.
      * by right.
    + intros (l' & [->|Hl']%elem_of_cons & Hx); [by left | right; eauto].
Qed.

(** The loop over the pull requests runs the lookups in order, each in the
    state the one before has left, and appends what they return. *)
Lemma collect_jira_ids_lookups github key merged_prs : forall acc st st' ids,
  collect_jira_ids github key merged_prs acc st = (st', Ok ids) ->
  exists founds,
    lookups github key merged_prs st founds st' /\ ids = acc ++ concat founds.
Proof.
  induction merged_prs as [|pr_id rest IH]; intros acc st st' ids Hrun; simpl in Hrun.
  - injection Hrun as <- <-. exists []. split; [done | by rewrite app_nil_r].
  - apply bind_inv_ok in Hrun as (s1 & found & Hone & Hrest).
    apply IH in Hrest as (founds & Hall & ->).
    exists (found :: founds). split; [by exists s1|].
    simpl. by rewrite app_assoc.
Qed.

(** C7.  The list of issue ids that [main] hands to its final loop comes
    from the run's own lookups: the project was loaded, the previous tag
    looked up, the merged pull requests listed, and every one of them
    looked up in turn on the code host, each lookup starting where the
    one before ended.  The list is [list(set(...))] of everything these
    lookups returned: it has no duplicate, it contains exactly the ids
    that one of the lookups returned, however many times and by however
    many pull requests, and any other gathering of the same ids gives
    the same collection up to order. *)
Theorem issue_ids_form_a_set args version st st' jira ids :
  prepare_release args version st = (st', Ok (jira, ids)) ->
  exists st1 st2 found st3 merged_prs founds st4,
    load_project (jira_of args) st = (st1, Ok jira)
    /\ find_previous_version_tag version st1 = (st2, Ok found)
    /\ list_merged_prs (chosen_lower_bound version found) version
         (after_choice version found st2) = (st3, Ok merged_prs)
    /\ lookups (github_of args) (arg_jira_project_key args) merged_prs
         (after_listing merged_prs st3) founds st4
    /\ ids = list_of_set (concat founds)
    /\ NoDup ids
    /\ (forall x, x ∈ ids <-> exists found, found ∈ founds /\ x ∈ found)
    /\ (forall other, (forall x, x ∈ other <-> x ∈ concat founds) ->
                      list_of_set other ≡ₚ ids).
Proof.
  unfold prepare_release. intros Hrun.
  apply bind_inv_ok in Hrun as (st1 & jira1 & Hload & Hrun).
  apply bind_inv_ok in Hrun as (st2 & found & Hfind & Hrun).
  apply bind_inv_ok in Hrun as (s3 & prev_version & Hchoice & Hrun).
  apply bind_inv_ok in Hrun as (st3 & merged_prs & Hlist & Hrun).
  apply bind_inv_ok in Hrun as (s5 & [] & Hprint & Hrun).
  apply bind_inv_ok in Hrun as (st4 & gathered & Hgather & Hrun).
  apply bind_inv_ok in Hrun as (s7 & [] & _ & Hrun).
  apply bind_inv_ok in Hrun as (s8 & [] & _ & Hrun).
  injection Hrun as _ <- <-.
  assert (Hchosen : s3 = after_choice version found st2
                    /\ prev_version = chosen_lower_bound version found).
  { destruct found; simpl in Hchoice; by injection Hchoice as <- <-. }
  destruct Hchosen as [-> ->].
  injection Hprint as <-.
  apply collect_jira_ids_lookups in Hgather as (founds & Hlookups & ->).
  exists st1, st2, found, st3, merged_prs, founds, st4. simpl.
  split; [done|]. split; [done|]. split; [done|]. split; [done|].
  split; [done|]. split; [apply list_of_set_NoDup|]. split.
  - intros x. rewrite list_of_set_elem. apply elem_of_concat.
  - intros other Hother. by apply list_of_set_same.
Qed.
End IssueSet.

(** ** The theorems at work on the scripted platform *)

(** C1 at a concrete tracker: the creation of the version is refused with
    status 403 and a body that reports no name error, and
    [assert_version] returns as if the version had been created. *)
Lemma assert_version_swallows_other_http_errors_witness :
  exists req w,
    assert_version demo_jira demo_version
      (demo_tracker (ErrorResponse 403 (body_of permission_document)))
    = (version_sent demo_jira demo_version req w
         (demo_tracker (ErrorResponse 403 (body_of permission_document))),
       Ok tt).
Proof.
  eexists _, _.
  eapply (assert_version_swallows_other_http_errors demo_jira demo_version
            (demo_tracker (ErrorResponse 403 (body_of permission_document)))
            _ _ 403 (body_of permission_document) _ _ JNull).
  - vm_compute. reflexivity.
  - reflexivity.
  - vm_compute. reflexivity.
  - vm_compute. reflexivity.
  - reflexivity.
  - discriminate.
Defined.

(** C10 at a concrete tracker: a gateway answers with a page of HTML. *)
Lemma assert_version_raises_on_non_json_error_body_witness :
  exists req w e,
    (e = UnicodeDecodeError \/ e = JSONDecodeError)
    /\ assert_version demo_jira demo_version
         (demo_tracker (ErrorResponse 502 (blit "<html>Bad Gateway</html>")))
       = (version_sent demo_jira demo_version req w
            (demo_tracker (ErrorResponse 502 (blit "<html>Bad Gateway</html>"))),
          Raise e).
Proof.
  eexists _, _.
  eapply (assert_version_raises_on_non_json_error_body demo_jira demo_version
            (demo_tracker (ErrorResponse 502 (blit "<html>Bad Gateway</html>")))
            _ _ 502 (blit "<html>Bad Gateway</html>")).
  - vm_compute. reflexivity.
  - reflexivity.
  - vm_compute. reflexivity.
Defined.

(** C9 at a concrete tracker: the project is loaded, then the version is
    created with its [id]. *)
Lemma assert_version_needs_loaded_project_witness :
  let unloaded := Jira_init (lit "ABC") (lit "bot@example.com") (lit "secret")
                    (lit "https://example.atlassian.net") in
  let st := demo_tracker (Response (body_of (JObj []))) in
  let payload := version_payload (lit "2020-02-28") demo_version (JStr (lit "10000")) in
  exists req,
    assert_version unloaded demo_version st
      = (record (version_banner unloaded demo_version) st, Raise TypeError)
    /\ req_data req = Some (json_dumps payload)
    /\ subscript payload (lit "projectId") = Ok (JStr (lit "10000"))
    /\ (exists body, json_loads_bytes body = Some (project demo_jira))
    /\ exists st' r evs,
         assert_version demo_jira demo_version st = (st', r)
         /\ trace st' = trace st ++ [version_banner demo_jira demo_version; EvHttp req] ++ evs.
Proof.
  intros unloaded st payload. eexists.
  eapply (assert_version_needs_loaded_project
            (lit "ABC") (lit "bot@example.com") (lit "secret")
            (lit "https://example.atlassian.net")
            (demo_tracker (Response (body_of project_document)))
            (fst (load_project unloaded (demo_tracker (Response (body_of project_document)))))
            demo_jira demo_version st (JStr (lit "10000"))).
  - apply run_outcome. vm_compute. reflexivity.
  - reflexivity.
  - vm_compute. reflexivity.
Defined.

(** C2 on the tags of the specification: the oldest tag is asked for. *)
Lemma find_previous_version_tag_oldest_raises_witness :
  find_previous_version_tag (lit "v1.0.0")
    (demo_start [] [Output (blit "v2.0.0
v1.5.0
v1.0.0
")])
  = ({| world := ([], []); trace := [EvGit tag_command] |}, Raise IndexError).
Proof.
  apply (find_previous_version_tag_oldest_raises (lit "v1.0.0")
           (demo_start [] [Output (blit "v2.0.0
v1.5.0
v1.0.0
")])
           ([], []) (blit "v2.0.0
v1.5.0
v1.0.0
") [lit "v2.0.0"; lit "v1.5.0"]).
  - reflexivity.
  - vm_compute. reflexivity.
  - rewrite !not_elem_of_cons. repeat split; try discriminate. apply not_elem_of_nil.
Defined.

(** The example of the specification: the tag before [v1.5.0]. *)
Example find_previous_version_tag_demo :
  snd (find_previous_version_tag (lit "v1.5.0")
         (demo_start [] [Output (blit "v2.0.0
v1.5.0
v1.0.0
")]))
  = Ok (Some (lit "v1.0.0")).
Proof. reflexivity. Qed.

(** C8 on the tags of the run: [v1.5.0-beta] is not a candidate. *)
Lemma candidate_tags_have_no_hyphen_witness :
  let tags := [lit "v2.0.0"; lit "v1.5.0"; lit "v1.0.0"] in
  let st := demo_start [] [Output demo_tags] in
  Forall (fun t => chr_hyphen ∉ t) tags
  /\ (lit "v1.0.0-beta" ∉ tags)
  /\ (exists lines,
        map_outcome (fun t => of_option UnicodeDecodeError (utf8_decode t))
          (split_on byte_newline (strip demo_tags)) = Ok lines
        /\ forall t, t ∈ tags <-> (t ∈ lines /\ chr_hyphen ∉ t))
  /\ find_previous_version_tag demo_version st
     = previous_in tags demo_version
         {| world := ([], []); trace := trace st ++ [EvGit tag_command] |}.
Proof.
  intros tags st.
  apply (candidate_tags_have_no_hyphen demo_version st ([], []) demo_tags tags).
  - reflexivity.
  - vm_compute. reflexivity.
Defined.


(** C6 (amended) on the title of the specification. *)
Lemma get_jira_id_from_pr_finds_key_digits_witness :
  snd (get_jira_id_from_pr demo_github (lit "ABC") (lit "10")
         (demo_start
            [Response (body_of (pr_document "Fix ABC-123 and ABC-124" "main"))] []))
  = Ok [lit "ABC-123"; lit "ABC-124"].
Proof.
  edestruct (get_jira_id_from_pr_finds_key_digits demo_github (lit "ABC") (lit "10")
               (demo_start
                  [Response (body_of (pr_document "Fix ABC-123 and ABC-124" "main"))] [])
               (built (pr_request demo_github (lit "10"))) ([], [])
               (body_of (pr_document "Fix ABC-123 and ABC-124" "main"))
               (pr_document "Fix ABC-123 and ABC-124" "main")
               (lit "Fix ABC-123 and ABC-124")
               (JObj [(lit "ref", JStr (lit "main"))]) (lit "main"))
    as [Hrun _].
  - repeat constructor.
  - vm_compute. reflexivity.
  - reflexivity.
  - vm_compute. reflexivity.
  - reflexivity.
  - reflexivity.
  - reflexivity.
  - rewrite Hrun. vm_compute. reflexivity.
Defined.

(** C4 on a pre-release tag given on the command line. *)
Lemma main_stops_on_other_versions_witness :
  let st := demo_start [] [Failed 128; Output (blit "ok")] in
  let st' := fst (startup (demo_args (Some (lit "v1.0.0-beta"))) st) in
  main (demo_args (Some (lit "v1.0.0-beta"))) st = (st', Ok tt)
  /\ exists evs, trace st' = trace st ++ evs /\ Forall no_http_call evs.
Proof.
  intros st st'.
  apply (main_stops_on_other_versions (demo_args (Some (lit "v1.0.0-beta"))) st st'
           (lit "v1.0.0-beta")).
  - apply run_outcome. vm_compute. reflexivity.
  - vm_compute. reflexivity.
Defined.

(** C5 on the run: the tracker refuses the second of four attachments. *)
Lemma failed_attachment_ends_the_run_witness :
  main (demo_args None) demo_run
  = ({| world := ([], []);
        trace := trace demo_prepared
                 ++ attach_trace demo_jira demo_version ([lit "ABC-6"] ++ [lit "ABC-5"]) |},
     Raise (HTTPError 404 (blit "no such issue"))).
Proof.
  apply (failed_attachment_ends_the_run (demo_args None) demo_run demo_started
           demo_version demo_jira demo_prepared [lit "ABC-6"] (lit "ABC-5")
           [lit "ABC-124"; lit "ABC-123"]
           (fst (attach_all demo_jira demo_version [lit "ABC-6"] demo_prepared))
           (built (fix_version_request demo_jira (lit "ABC-5") demo_version))).
  - apply run_outcome. vm_compute. reflexivity.
  - vm_compute. reflexivity.
  - apply run_outcome. vm_compute. reflexivity.
  - apply run_outcome. vm_compute. reflexivity.
  - vm_compute. reflexivity.
  - vm_compute. reflexivity.
Defined.

(** C7 on the run: [ABC-5] is mentioned by two pull requests and is in the
    collection once. *)
Lemma issue_ids_form_a_set_witness :
  let ids := [lit "ABC-6"; lit "ABC-5"; lit "ABC-124"; lit "ABC-123"] in
  exists st1 st2 found st3 merged_prs founds st4,
    load_project (jira_of (demo_args None)) demo_started = (st1, Ok demo_jira)
    /\ find_previous_version_tag demo_version st1 = (st2, Ok found)
    /\ list_merged_prs (chosen_lower_bound demo_version found) demo_version
         (after_choice demo_version found st2) = (st3, Ok merged_prs)
    /\ lookups (github_of (demo_args None)) (lit "ABC") merged_prs
         (after_listing merged_prs st3) founds st4
    /\ ids = list_of_set (concat founds)
    /\ NoDup ids
    /\ (forall x, x ∈ ids <-> exists found, found ∈ founds /\ x ∈ found)
    /\ (forall other, (forall x, x ∈ other <-> x ∈ concat founds) ->
                      list_of_set other ≡ₚ ids).
Proof.
  intros ids.
  apply (issue_ids_form_a_set (demo_args None) demo_version demo_started demo_prepared
           demo_jira ids).
  apply run_outcome. vm_compute. reflexivity.
Defined.

(** * Further properties *)

(** ** More on [assert_version] *)

Section AssertVersionMore.
Context `{UnicodeData} `{Platform}.

(** X2.  When the tracker accepts the creation but [json.loads] rejects
    the body of its answer, [assert_version] raises the error of
    [json.loads] although the version has been created:
    [UnicodeDecodeError] when the bytes do not decode, [JSONDecodeError]
    when the text is not JSON.  The call sits in the [try] block, and the
    [except] clause catches only [HTTPError]. *)
Theorem assert_version_created_with_unreadable_answer
    self version st req w body :
  version_request self (date_today (world st)) version = Ok req ->
  urlopen (world st) req = (w, Response body) ->
  json_loads_bytes body = None ->
  assert_version self version st
  = (version_sent self version req w st,
     Raise (match decode_detected body with
            | None => UnicodeDecodeError
            | Some _ => JSONDecodeError
            end)).
Proof.
  intros Hreq Hu Hbody.
  unfold assert_version, print, today, mbind, M_bind, try_except_HTTPError, http, lift.
  simpl. rewrite Hreq, Hu. unfold version_sent. rewrite <- app_assoc.
  unfold json_loads_bytes in Hbody. unfold loads_bytes.
  destruct (decode_detected body) as [text|]; simpl in *; [|done].
  by rewrite Hbody.
Qed.

(** X3.  When the body of an HTTP error is JSON but not an object, or is an
    object whose [errors] entry is not an object, the [except] clause
    itself fails: [assert_version] raises [AttributeError]. *)
Theorem assert_version_error_body_of_another_shape
    self version st req w code body text response :
  version_request self (date_today (world st)) version = Ok req ->
  urlopen (world st) req = (w, ErrorResponse code body) ->
  utf8_decode body = Some text ->
  json_loads text = Some response ->
  is_dict response = false
  \/ (exists fields errors,
        response = JObj fields
        /\ obj_get (lit "errors") fields = Some errors
        /\ is_dict errors = false) ->
  assert_version self version st
  = (version_sent self version req w st, Raise AttributeError).
Proof.
  intros Hreq Hu Htext Hjson Hshape.
  rewrite (assert_version_http_error _ _ _ _ _ _ _ Hreq Hu).
  unfold version_error_handler, mbind, M_bind, lift.
  rewrite Htext; simpl. rewrite Hjson; simpl.
  destruct Hshape as [Hno|(fields & errors & -> & Herrors & Hno)].
  - by destruct response.
  - simpl. rewrite Herrors. simpl. by destruct errors.
Qed.

(** Once the request is built, what [assert_version] adds to the trace
    is its banner, the request and at most the line about a version that
    exists. *)
Lemma assert_version_trace self version st req :
  version_request self (date_today (world st)) version = Ok req ->
  exists evs,
    trace (fst (assert_version self version st))
    = trace st ++ [version_banner self version; EvHttp req] ++ evs
    /\ (evs = [] \/ evs = [already_there]).
Proof.
  intros Hreq.
  destruct (urlopen (world st) req) as [w reply] eqn:Hu.
  destruct reply as [body|code body|].
  - unfold assert_version, print, today, mbind, M_bind, try_except_HTTPError, http, lift.
    simpl. rewrite Hreq, Hu, <- app_assoc.
    exists []. split; [|by left].
    unfold loads_bytes.
    by destruct (decode_detected body) as [text|]; [destruct (json_loads text)|].
  - rewrite (assert_version_http_error _ _ _ _ _ _ _ Hreq Hu).
    unfold version_error_handler, mbind, M_bind, lift.
    assert (Hsent : exists evs,
               trace (version_sent self version req w st)
               = trace st ++ [version_banner self version; EvHttp req] ++ evs
               /\ (evs = [] \/ evs = [already_there])).
    { exists []. split; [done | by left]. }
    destruct (utf8_decode body) as [text|]; simpl; [|apply Hsent].
    destruct (json_loads text) as [response|]; simpl; [|apply Hsent].
    destruct (dict_get response _ _) as [errors|]; [|apply Hsent].
    destruct (dict_get errors _ _) as [name|]; [|apply Hsent].
    destruct name as [| | |s| |]; try apply Hsent.
    destruct (decide _); [|apply Hsent].
    exists [already_there]. split; [|by right].
    simpl. by rewrite <- app_assoc.
  - unfold assert_version, print, today, mbind, M_bind, try_except_HTTPError, http, lift.
    simpl. rewrite Hreq, Hu, <- app_assoc. exists []. by split; [|left].
Qed.

(** X4.  However it ends, a call of [assert_version] sends at most one
    request and runs no command. *)
Theorem assert_version_sends_at_most_one_request self version st :
  exists evs,
    trace (fst (assert_version self version st)) = trace st ++ evs
    /\ (length (filter (fun ev => is_http_call ev = true) evs) <= 1)%nat
    /\ Forall (fun ev => forall argv, ev <> EvGit argv) evs.
Proof.
  destruct (version_request self (date_today (world st)) version) as [req|e] eqn:Hreq.
  - destruct (assert_version_trace _ _ _ _ Hreq) as (evs & Htrace & Hevs).
    eexists. split; [exact Htrace|].
    destruct Hevs as [->| ->]; (split; [vm_compute; lia | by repeat constructor]).
  - rewrite (assert_version_not_built _ _ _ _ Hreq). eexists. split; [reflexivity|].
    split; [vm_compute; lia | by repeat constructor].
Qed.
End AssertVersionMore.

(** ** More on [find_previous_version_tag] *)

Section PreviousTagMore.
Context `{UnicodeData} `{Platform}.

Lemma candidate_tags_hyphen_free output tags :
  candidate_tags output = Ok tags -> Forall (fun t => chr_hyphen ∉ t) tags.
Proof.
  unfold candidate_tags. destruct (map_outcome _ _) as [lines|]; [|discriminate].
  intros [= <-]. apply Forall_forall. intros t Ht.
  by apply list_elem_of_filter in Ht as [? _].
Qed.

(** X7.  Whatever [find_previous_version_tag] returns as the previous tag
    is the candidate that comes right after the first occurrence of the
    version, and it contains no hyphen. *)
Theorem find_previous_version_tag_returns_the_next_candidate
    version st w out tags st' previous :
  check_output (world st) tag_command = (w, Output out) ->
  candidate_tags (strip out) = Ok tags ->
  find_previous_version_tag version st = (st', Ok (Some previous)) ->
  (exists front rest,
      tags = front ++ version :: previous :: rest /\ version ∉ front)
  /\ chr_hyphen ∉ previous.
Proof.
  intros Hgit Htags Hrun.
  rewrite (find_previous_version_tag_run _ _ _ _ _ Hgit Htags) in Hrun.
  assert (Hsplit : exists front rest,
             tags = front ++ version :: previous :: rest /\ version ∉ front).
  { unfold previous_in in Hrun.
    destruct (decide (version ∉ tags)) as [|Hin]; [discriminate|].
    apply dec_stable in Hin.
    apply list_elem_of_split_l in Hin as (front & after & -> & Hfront).
    unfold mbind, M_bind, lift in Hrun. rewrite list_index_first in Hrun by done.
    destruct (decide _); [discriminate|].
    unfold list_item in Hrun. rewrite lookup_app_r in Hrun by lia.
    replace (length front + 1 - length front)%nat with 1%nat in Hrun by lia.
    destruct after as [|next rest]; [discriminate|].
    injection Hrun as _ <-. by exists front, rest. }
  split; [done|].
  destruct Hsplit as (front & rest & -> & _).
  apply candidate_tags_hyphen_free in Htags.
  rewrite Forall_forall in Htags. apply Htags. set_solver.
Qed.

(** X8.  A version with a hyphen, such as a pre-release, is never among
    the candidates: [find_previous_version_tag] says so and returns
    [None]. *)
Theorem find_previous_version_tag_of_a_prerelease version st w out tags :
  check_output (world st) tag_command = (w, Output out) ->
  candidate_tags (strip out) = Ok tags ->
  chr_hyphen ∈ version ->
  find_previous_version_tag version st
  = ({| world := w;
        trace := trace st
          ++ [EvGit tag_command;
              EvPrint (Line (version ++ lit " not found in current list of tags"))] |},
     Ok None).
Proof.
  intros Hgit Htags Hhyphen.
  rewrite (find_previous_version_tag_run _ _ _ _ _ Hgit Htags).
  rewrite previous_in_absent.
  - unfold record. simpl. by rewrite <- app_assoc.
  - intros Hin. apply candidate_tags_hyphen_free in Htags.
    rewrite Forall_forall in Htags. by apply (Htags _ Hin).
Qed.

End PreviousTagMore.

(** ** The start of [main] *)

Section StartupMore.
Context `{UnicodeData} `{Platform}.

(** X9.  A [git fetch] that exits with an error does not stop the run:
    [best_effort_fetch] returns normally after the command. *)
Theorem best_effort_fetch_ignores_a_failed_fetch flag st w returncode :
  check_output (world st) [lit "git"; lit "fetch"; flag] = (w, Failed returncode) ->
  best_effort_fetch flag st
  = ({| world := w;
        trace := trace st ++ [EvPrint (Line (lit "git fetch " ++ flag));
                              EvGit [lit "git"; lit "fetch"; flag]] |},
     Ok tt).
Proof.
  intros Hgit.
  unfold best_effort_fetch, try_except_CalledProcessError, print, mbind, M_bind, git.
  simpl. rewrite Hgit. by rewrite <- app_assoc.
Qed.

(** X10.  Only the exit status is forgiven: when [git fetch] succeeds but
    prints bytes that are not UTF-8, the [print] of its output raises
    [UnicodeDecodeError], which the [except] clause lets through. *)
Theorem best_effort_fetch_fails_on_undecodable_output flag st w out :
  check_output (world st) [lit "git"; lit "fetch"; flag] = (w, Output out) ->
  utf8_decode out = None ->
  best_effort_fetch flag st
  = ({| world := w;
        trace := trace st ++ [EvPrint (Line (lit "git fetch " ++ flag));
                              EvGit [lit "git"; lit "fetch"; flag]] |},
     Raise UnicodeDecodeError).
Proof.
  intros Hgit Hout.
  unfold best_effort_fetch, try_except_CalledProcessError, print, mbind, M_bind, git, lift.
  simpl. rewrite Hgit, Hout. by rewrite <- app_assoc.
Qed.

(** X11.  A version given on the command line that is not empty is taken
    as it is, without asking git. *)
Theorem resolve_version_uses_the_argument args st version :
  arg_version args = Some version ->
  version <> [] ->
  resolve_version args st = (st, Ok version).
Proof.
  intros Harg Hne. unfold resolve_version. rewrite Harg.
  by destruct version.
Qed.

(** X12.  An empty [--version] counts as none: the version is what
    [git describe --tags] prints, stripped. *)
Theorem resolve_version_of_an_empty_argument args st w out version :
  arg_version args = Some [] ->
  check_output (world st) [lit "git"; lit "describe"; lit "--tags"] = (w, Output out) ->
  utf8_decode (strip out) = Some version ->
  resolve_version args st
  = ({| world := w;
        trace := trace st ++ [EvGit [lit "git"; lit "describe"; lit "--tags"]] |},
     Ok version).
Proof.
  intros Harg Hgit Hout. unfold resolve_version. rewrite Harg.
  unfold mbind, M_bind, git, lift. by rewrite Hgit, Hout.
Qed.
End StartupMore.

(** ** More on [list_merged_prs] *)

Section MergedPrsMore.
Context `{UnicodeData} `{Platform}.

Lemma pr_numbers_spec_digits s :
  Forall (fun id => id <> [] /\ Forall (fun c => is_digit c = true) id)
    (pr_numbers_spec s).
Proof.
  induction s as [|c s IH]; simpl; [constructor|].
  destruct (c =? chr_hash); [|done].
  pose proof (digit_run_digits s) as Hdigits.
  destruct (digit_run s) as [|d ds]; [done|]. by constructor.
Qed.

(** X13.  Every id [list_merged_prs] returns is a number: it is not
    empty and is made of digits only. *)
Theorem list_merged_prs_returns_numbers prev_version version st st' ids :
  list_merged_prs prev_version version st = (st', Ok ids) ->
  Forall (fun id => id <> [] /\ Forall (fun c => is_digit c = true) id) ids.
Proof.
  unfold list_merged_prs. intros Hrun.
  apply bind_inv_ok in Hrun as (s1 & [] & _ & Hrun).
  apply bind_inv_ok in Hrun as (s2 & out & _ & Hrun).
  apply bind_inv_ok in Hrun as (s3 & logs & _ & Hrun).
  apply lift_inv_ok in Hrun as [_ Hids].
  rewrite pr_ids_in_spec in Hids. injection Hids as <-.
  apply pr_numbers_spec_digits.
Qed.
End MergedPrsMore.

(** ** The steps of [main] after the version check *)

Section Steps.
Context `{UnicodeData} `{Platform}.

Lemma choose_lower_bound_run version found st :
  match found with
  | None =>
    print (lit "did not find a version before " ++ version
           ++ lit ", fall back to last 100 commits");;
    mret (version ++ lit "~100")
  | Some prev_version => mret prev_version
  end st
  = (after_choice version found st, Ok (chosen_lower_bound version found)).
Proof. by destruct found. Qed.

(** [prepare_release] once the project is loaded, the previous tag looked
    up and the pull requests listed. *)
Lemma prepare_release_listed args version st st1 jira st2 found st3 merged_prs :
  load_project (jira_of args) st = (st1, Ok jira) ->
  find_previous_version_tag version st1 = (st2, Ok found) ->
  list_merged_prs (chosen_lower_bound version found) version
    (after_choice version found st2) = (st3, Ok merged_prs) ->
  prepare_release args version st
  = (jira_issue_ids ← collect_jira_ids (github_of args) (arg_jira_project_key args)
                        merged_prs [];
     print_list (lit "found these Jira IDs for this release ")
       (list_of_set jira_issue_ids);;
     assert_version jira version;;
     mret (jira, list_of_set jira_issue_ids))
      (after_listing merged_prs st3).
Proof.
  intros Hload Hfind Hlist. unfold prepare_release.
  rewrite (bind_ok _ _ _ _ _ Hload), (bind_ok _ _ _ _ _ Hfind).
  rewrite (bind_ok _ _ _ _ _ (choose_lower_bound_run version found st2)).
  rewrite (bind_ok _ _ _ _ _ Hlist).
  by unfold mbind at 1, M_bind at 1, print.
Qed.

Lemma collect_jira_ids_app github key done rest : forall acc st st1 acc1,
  collect_jira_ids github key done acc st = (st1, Ok acc1) ->
  collect_jira_ids github key (done ++ rest) acc st
  = collect_jira_ids github key rest acc1 st1.
Proof.
  induction done as [|pr_id done IH]; intros acc st st1 acc1 Hdone; simpl in *.
  - by injection Hdone as -> ->.
  - unfold mbind, M_bind in *.
    destruct (get_jira_id_from_pr github key pr_id st) as [s [found|e]];
      [by apply IH | discriminate].
Qed.

(** X14.  When the lookup of one pull request fails after the lookups
    before it have succeeded, the run ends there with that failure: the
    later pull requests are not looked up, and the run never gets to
    creating the version or to touching an issue. *)
Theorem failed_lookup_ends_the_run
    args st st0 version st1 jira st2 found st3 done pr_id rest st4 ids st5 e :
  startup args st = (st0, Ok version) ->
  re_match version_pattern version = true ->
  load_project (jira_of args) st0 = (st1, Ok jira) ->
  find_previous_version_tag version st1 = (st2, Ok found) ->
  list_merged_prs (chosen_lower_bound version found) version
    (after_choice version found st2) = (st3, Ok (done ++ pr_id :: rest)) ->
  collect_jira_ids (github_of args) (arg_jira_project_key args) done []
    (after_listing (done ++ pr_id :: rest) st3) = (st4, Ok ids) ->
  get_jira_id_from_pr (github_of args) (arg_jira_project_key args) pr_id st4
    = (st5, Raise e) ->
  main args st = (st5, Raise e).
Proof.
  intros Hstart Hmatch Hload Hfind Hlist Hdone Hfail.
  unfold main. rewrite (bind_ok _ _ _ _ _ Hstart), Hmatch. cbn [negb].
  apply bind_raise.
  rewrite (prepare_release_listed _ _ _ _ _ _ _ _ _ Hload Hfind Hlist).
  apply bind_raise. rewrite (collect_jira_ids_app _ _ _ _ _ _ _ _ Hdone).
  cbn [collect_jira_ids]. by apply bind_raise.
Qed.

Lemma grows_ret {A} (a : A) : grows (mret a : M A).
Proof. intros st. exists []. by rewrite app_nil_r. Qed.

Lemma grows_lift {A} (o : outcome A) : grows (lift o).
Proof. intros st. exists []. by rewrite app_nil_r. Qed.

Lemma grows_print text : grows (print text).
Proof. intros st. by exists [EvPrint (Line text)]. Qed.

Lemma grows_print_list text l : grows (print_list text l).
Proof. intros st. by exists [EvPrint (LineWithList text l)]. Qed.

Lemma grows_http req : grows (http req).
Proof.
  intros st. exists [EvHttp req]. unfold http.
  by destruct (urlopen (world st) req) as [w []].
Qed.

Lemma grows_bind {A B} (m : M A) (f : A -> M B) :
  grows m -> (forall a, grows (f a)) -> grows (m ≫= f).
Proof.
  intros Hm Hf st. unfold mbind, M_bind.
  destruct (Hm st) as (evs1 & H1). destruct (m st) as [st1 [a|e]]; simpl in H1.
  - destruct (Hf a st1) as (evs2 & H2). exists (evs1 ++ evs2).
    by rewrite H2, H1, app_assoc.
  - by exists evs1.
Qed.

Lemma grows_get_jira_id_from_pr github key pr_id :
  grows (get_jira_id_from_pr github key pr_id).
Proof.
  unfold get_jira_id_from_pr.
  apply grows_bind; [apply grows_lift|]. intros req.
  apply grows_bind; [apply grows_http|]. intros body.
  apply grows_bind; [apply grows_lift|]. intros data. apply grows_lift.
Qed.

Lemma grows_collect_jira_ids github key merged_prs : forall acc,
  grows (collect_jira_ids github key merged_prs acc).
Proof.
  induction merged_prs as [|pr_id rest IH]; intros acc; simpl.
  - apply grows_ret.
  - apply grows_bind; [apply grows_get_jira_id_from_pr|]. intros found. apply IH.
Qed.

Lemma grows_assert_version self version : grows (assert_version self version).
Proof.
  intros st.
  destruct (version_request self (date_today (world st)) version) as [req|e] eqn:Hreq.
  - destruct (assert_version_trace _ _ _ _ Hreq) as (evs & Htrace & _). eauto.
  - rewrite (assert_version_not_built _ _ _ _ Hreq). by eexists.
Qed.

(** [list_merged_prs] starts with its line and its command, whatever
    follows. *)
Lemma list_merged_prs_starts {A} prev_version version (K : list str -> M A) st :
  (forall merged_prs, grows (K merged_prs)) ->
  exists evs,
    trace (fst ((list_merged_prs prev_version version ≫= K) st))
    = trace st
      ++ [EvPrint (Line (lit "listing all merged PRs between " ++ prev_version
                         ++ lit " and " ++ version));
          EvGit (log_command prev_version version)]
      ++ evs.
Proof.
  intros HK. unfold list_merged_prs, mbind, M_bind, print, git, lift.
  cbn [record world trace].
  destruct (check_output (world st) (log_command prev_version version)) as [w reply].
  assert (Hstop : forall (r : outcome A) s,
             trace s = (trace st ++ [EvPrint (Line (lit "listing all merged PRs between "
                                        ++ prev_version ++ lit " and " ++ version))])
                       ++ [EvGit (log_command prev_version version)] ->
             exists evs, trace (fst (s, r))
               = trace st
                 ++ [EvPrint (Line (lit "listing all merged PRs between " ++ prev_version
                                    ++ lit " and " ++ version));
                     EvGit (log_command prev_version version)] ++ evs).
  { intros r s Hs. exists []. cbn [fst]. by rewrite Hs, <- app_assoc. }
  destruct reply as [out| |]; try by apply Hstop.
  destruct (utf8_decode (strip out)) as [logs|]; cbn [of_option]; [|by apply Hstop].
  destruct (pr_ids_in logs) as [ids|]; [|by apply Hstop].
  match goal with |- context [K ids ?s] => destruct (HK ids s) as (evs & ->) end.
  exists evs. cbn [trace]. by rewrite <- !app_assoc.
Qed.

(** X15.  When no previous tag is found, [main] says so and asks git for
    the log of the range that starts at [version~100]: after the lookup
    of the tag the run goes on with that line, the line of
    [list_merged_prs] and that command. *)
Theorem missing_previous_tag_falls_back_to_100_commits
    args version st st1 jira st2 :
  load_project (jira_of args) st = (st1, Ok jira) ->
  find_previous_version_tag version st1 = (st2, Ok None) ->
  exists st' r,
    prepare_release args version st = (st', r)
    /\ exists evs,
         trace st'
         = trace st2
           ++ [EvPrint (Line (lit "did not find a version before " ++ version
                              ++ lit ", fall back to last 100 commits"));
               EvPrint (Line (lit "listing all merged PRs between "
                              ++ (version ++ lit "~100") ++ lit " and " ++ version));
               EvGit (log_command (version ++ lit "~100") version)]
           ++ evs.
Proof.
  intros Hload Hfind. unfold prepare_release.
  rewrite (bind_ok _ _ _ _ _ Hload), (bind_ok _ _ _ _ _ Hfind).
  rewrite (bind_ok _ _ _ _ _ (choose_lower_bound_run version None st2)).
  match goal with
  | |- context [(list_merged_prs ?p version ≫= ?K) ?s] =>
    destruct (list_merged_prs_starts p version K s) as (evs & Hevs)
  end.
  { intros merged_prs.
    apply grows_bind; [apply grows_print|]. intros _.
    apply grows_bind; [apply grows_collect_jira_ids|]. intros ids.
    apply grows_bind; [apply grows_print_list|]. intros _.
    apply grows_bind; [apply grows_assert_version|]. intros _. apply grows_ret. }
  eexists _, _. split; [apply surjective_pairing|].
  exists evs. rewrite Hevs. unfold after_choice, record. simpl.
  by rewrite <- !app_assoc.
Qed.
Lemma load_project_run self st :
  load_project self st
  = match project_request self with
    | Raise e => (st, Raise e)
    | Ok req =>
      match http req st with
      | (st', Ok body) =>
        (st', match loads_bytes body with
              | Ok p => Ok {| project_key := project_key self; email := email self;
                              api_key := api_key self; project := p;
                              jira_url := jira_url self |}
              | Raise e => Raise e
              end)
      | (st', Raise e) => (st', Raise e)
      end
    end.
Proof.
  unfold load_project, project_request, mbind, M_bind, lift.
  destruct (Request _ None None) as [req0|]; [|done].
  destruct (add_jira_auth self req0) as [req|]; [|done].
  destruct (http req st) as [st' [body|e]]; [|done].
  by destruct (loads_bytes body).
Qed.

(** X16.  When the tracker answers the request for the project with an
    HTTP error, [main] ends with that error right after the request: it
    has looked at no tag and at no pull request. *)
Theorem failed_project_load_ends_the_run
    args st st0 version req w code body :
  startup args st = (st0, Ok version) ->
  re_match version_pattern version = true ->
  project_request (jira_of args) = Ok req ->
  urlopen (world st0) req = (w, ErrorResponse code body) ->
  main args st
  = ({| world := w; trace := trace st0 ++ [EvHttp req] |},
     Raise (HTTPError code body)).
Proof.
  intros Hstart Hmatch Hreq Hu.
  unfold main. rewrite (bind_ok _ _ _ _ _ Hstart), Hmatch. cbn [negb].
  apply bind_raise. unfold prepare_release. apply bind_raise.
  fold (jira_of args). rewrite load_project_run, Hreq.
  by rewrite (http_error _ _ _ _ _ Hu).
Qed.

(** X17.  Credentials with a character outside ASCII stop the run before
    anything is sent: [main] ends with [UnicodeEncodeError] in the state
    in which the version was settled, and the run has called no
    service. *)
Theorem non_ascii_credentials_end_the_run args st st0 version :
  startup args st = (st0, Ok version) ->
  re_match version_pattern version = true ->
  url_has_type (arg_jira_url args ++ lit "/rest/api/2/project/"
                ++ arg_jira_project_key args) = true ->
  ascii_encode (arg_jira_email args ++ lit ":" ++ arg_jira_api_key args) = None ->
  main args st = (st0, Raise UnicodeEncodeError)
  /\ exists evs, trace st0 = trace st ++ evs /\ Forall no_http_call evs.
Proof.
  intros Hstart Hmatch Hurl Hcreds. split; [|by apply offline_startup in Hstart].
  unfold main. rewrite (bind_ok _ _ _ _ _ Hstart), Hmatch. cbn [negb].
  apply bind_raise. unfold prepare_release. apply bind_raise.
  fold (jira_of args). rewrite load_project_run.
  unfold project_request, Request, add_jira_auth. cbn [jira_of Jira_init jira_url
    project_key email api_key]. by rewrite Hurl, Hcreds.
Qed.

(** X18.  A run that gets through: every id of the collection is the
    object of one line and one request, in the order of the collection,
    all of them after [prepare_release] (so after the creation of the
    version), and [main] returns normally. *)
Theorem complete_run_attaches_every_issue
    args st st0 version st1 jira ids st2 :
  startup args st = (st0, Ok version) ->
  re_match version_pattern version = true ->
  prepare_release args version st0 = (st1, Ok (jira, ids)) ->
  attach_all jira version ids st1 = (st2, Ok tt) ->
  main args st = (st2, Ok tt)
  /\ trace st2 = trace st1 ++ attach_trace jira version ids
  /\ Forall (fun issue_id =>
               exists req, fix_version_request jira issue_id version = Ok req) ids.
Proof.
  intros Hstart Hmatch Hprep Hattach. split; [|split].
  - unfold main. rewrite (bind_ok _ _ _ _ _ Hstart), Hmatch. cbn [negb].
    by rewrite (bind_ok _ _ _ _ _ Hprep).
  - by apply attach_all_ok.
  - clear Hprep. revert st1 Hattach. unfold attach_all.
    induction ids as [|issue_id ids IH]; intros st1 Hattach; [constructor|].
    cbn [for_each] in Hattach.
    apply bind_inv_ok in Hattach as (s & [] & Hone & Hrest).
    constructor; [|by eapply IH].
    unfold add_fix_version_to_issue, print, mbind, M_bind, lift in Hone.
    destruct (fix_version_request jira issue_id version); [eauto | discriminate].
Qed.

(** X19.  When no pull request was merged in the range, the code host is
    not asked anything, the version is created all the same, and [main]
    returns normally without touching an issue. *)
Theorem run_without_pull_requests
    args st st0 version st1 jira st2 found st3 st4 :
  startup args st = (st0, Ok version) ->
  re_match version_pattern version = true ->
  load_project (jira_of args) st0 = (st1, Ok jira) ->
  find_previous_version_tag version st1 = (st2, Ok found) ->
  list_merged_prs (chosen_lower_bound version found) version
    (after_choice version found st2) = (st3, Ok []) ->
  assert_version jira version (after_found [] (after_listing [] st3)) = (st4, Ok tt) ->
  main args st = (st4, Ok tt).
Proof.
  intros Hstart Hmatch Hload Hfind Hlist Hassert.
  assert (Hprep : prepare_release args version st0 = (st4, Ok (jira, []))).
  { rewrite (prepare_release_listed _ _ _ _ _ _ _ _ _ Hload Hfind Hlist).
    assert (Hempty : list_of_set [] = []) by (unfold list_of_set; apply elements_empty).
    cbn [collect_jira_ids]. unfold mbind, M_bind, mret, M_ret, print_list.
    rewrite Hempty. fold (after_found [] (after_listing [] st3)).
    by rewrite Hassert. }
  unfold main. rewrite (bind_ok _ _ _ _ _ Hstart), Hmatch. cbn [negb].
  by rewrite (bind_ok _ _ _ _ _ Hprep).
Qed.

(** X20.  A pull request whose record has no [title] makes the lookup
    fail with [KeyError], after the request. *)
Theorem get_jira_id_from_pr_without_title
    self key pr_id st req w body fields :
  pr_request self pr_id = Ok req ->
  urlopen (world st) req = (w, Response body) ->
  json_loads_bytes body = Some (JObj fields) ->
  obj_get (lit "title") fields = None ->
  get_jira_id_from_pr self key pr_id st
  = ({| world := w; trace := trace st ++ [EvHttp req] |},
     Raise (KeyError (lit "title"))).
Proof.
  intros Hreq Hu Hdata Htitle.
  rewrite (get_jira_id_from_pr_run _ _ _ _ _ _ _ _ Hreq Hu Hdata).
  unfold jira_ids_of_pr_data, subscript. by rewrite Htitle.
Qed.
End Steps.

(** ** The further properties at work on the scripted platform *)

Lemma assert_version_already_exists_witness :
  exists req w,
    assert_version demo_jira demo_version
      (demo_tracker (ErrorResponse 400 (body_of exists_document)))
    = (record (EvPrint (Line (lit "version is already on Jira, moving on")))
         (version_sent demo_jira demo_version req w
            (demo_tracker (ErrorResponse 400 (body_of exists_document)))),
       Ok tt).
Proof.
  eexists _, _.
  eapply (assert_version_already_exists demo_jira demo_version
            (demo_tracker (ErrorResponse 400 (body_of exists_document)))
            _ _ 400 (body_of exists_document)).
  - vm_compute. reflexivity.
  - reflexivity.
  - vm_compute. reflexivity.
  - vm_compute. reflexivity.
  - reflexivity.
  - reflexivity.
Defined.

Lemma assert_version_created_with_unreadable_answer_witness :
  exists req w,
    assert_version demo_jira demo_version (demo_tracker (Response ["255"%byte]))
    = (version_sent demo_jira demo_version req w
         (demo_tracker (Response ["255"%byte])),
       Raise UnicodeDecodeError).
Proof.
  eexists _, _.
  eapply (assert_version_created_with_unreadable_answer demo_jira demo_version
            (demo_tracker (Response ["255"%byte])) _ _ ["255"%byte]).
  - vm_compute. reflexivity.
  - reflexivity.
  - reflexivity.
Defined.

Lemma find_previous_version_tag_next_witness :
  find_previous_version_tag demo_version (demo_start [] [Output demo_tags])
  = ({| world := ([], []); trace := [EvGit tag_command] |}, Ok (Some (lit "v1.0.0"))).
Proof.
  apply (find_previous_version_tag_next demo_version (demo_start [] [Output demo_tags])
           ([], []) demo_tags [lit "v2.0.0"] (lit "v1.0.0") []).
  - reflexivity.
  - vm_compute. reflexivity.
  - rewrite !not_elem_of_cons. repeat split; try discriminate. apply not_elem_of_nil.
Defined.

Lemma find_previous_version_tag_absent_witness :
  snd (find_previous_version_tag (lit "v9.9.9") (demo_start [] [Output demo_tags]))
  = Ok None.
Proof.
  apply (find_previous_version_tag_absent (lit "v9.9.9")
           (demo_start [] [Output demo_tags]) ([], []) demo_tags
           [lit "v2.0.0"; lit "v1.5.0"; lit "v1.0.0"]).
  - reflexivity.
  - vm_compute. reflexivity.
  - rewrite !not_elem_of_cons. repeat split; try discriminate. apply not_elem_of_nil.
Defined.

Lemma find_previous_version_tag_returns_the_next_candidate_witness :
  (exists front rest,
      [lit "v2.0.0"; lit "v1.5.0"; lit "v1.0.0"]
      = front ++ demo_version :: lit "v1.0.0" :: rest /\ demo_version ∉ front)
  /\ chr_hyphen ∉ lit "v1.0.0".
Proof.
  apply (find_previous_version_tag_returns_the_next_candidate demo_version
           (demo_start [] [Output demo_tags]) ([], []) demo_tags
           [lit "v2.0.0"; lit "v1.5.0"; lit "v1.0.0"]
           (fst (find_previous_version_tag demo_version (demo_start [] [Output demo_tags])))
           (lit "v1.0.0")).
  - reflexivity.
  - vm_compute. reflexivity.
  - apply run_outcome. vm_compute. reflexivity.
Defined.

Lemma find_previous_version_tag_of_a_prerelease_witness :
  find_previous_version_tag (lit "v1.5.0-beta") (demo_start [] [Output demo_tags])
  = ({| world := ([], []);
        trace := [EvGit tag_command;
                  EvPrint (Line (lit "v1.5.0-beta"
                                 ++ lit " not found in current list of tags"))] |},
     Ok None).
Proof.
  apply (find_previous_version_tag_of_a_prerelease (lit "v1.5.0-beta")
           (demo_start [] [Output demo_tags]) ([], []) demo_tags
           [lit "v2.0.0"; lit "v1.5.0"; lit "v1.0.0"]).
  - reflexivity.
  - vm_compute. reflexivity.
  - vm_compute. set_solver.
Defined.

Lemma best_effort_fetch_ignores_a_failed_fetch_witness :
  best_effort_fetch (lit "--unshallow") (demo_start [] [Failed 128])
  = ({| world := ([], []);
        trace := [EvPrint (Line (lit "git fetch " ++ lit "--unshallow"));
                  EvGit [lit "git"; lit "fetch"; lit "--unshallow"]] |},
     Ok tt).
Proof.
  apply (best_effort_fetch_ignores_a_failed_fetch (lit "--unshallow")
           (demo_start [] [Failed 128]) ([], []) 128).
  reflexivity.
Defined.

Lemma best_effort_fetch_fails_on_undecodable_output_witness :
  best_effort_fetch (lit "--tags") (demo_start [] [Output ["255"%byte]])
  = ({| world := ([], []);
        trace := [EvPrint (Line (lit "git fetch " ++ lit "--tags"));
                  EvGit [lit "git"; lit "fetch"; lit "--tags"]] |},
     Raise UnicodeDecodeError).
Proof.
  apply (best_effort_fetch_fails_on_undecodable_output (lit "--tags")
           (demo_start [] [Output ["255"%byte]]) ([], []) ["255"%byte]).
  - reflexivity.
  - reflexivity.
Defined.

Lemma resolve_version_uses_the_argument_witness :
  resolve_version (demo_args (Some demo_version)) (demo_start [] [])
  = (demo_start [] [], Ok demo_version).
Proof.
  apply (resolve_version_uses_the_argument (demo_args (Some demo_version))
           (demo_start [] []) demo_version).
  - reflexivity.
  - discriminate.
Defined.

Lemma resolve_version_of_an_empty_argument_witness :
  resolve_version (demo_args (Some [])) (demo_start [] [Output (blit " v1.5.0
")])
  = ({| world := ([], []);
        trace := [EvGit [lit "git"; lit "describe"; lit "--tags"]] |},
     Ok demo_version).
Proof.
  apply (resolve_version_of_an_empty_argument (demo_args (Some []))
           (demo_start [] [Output (blit " v1.5.0
")]) ([], []) (blit " v1.5.0
") demo_version).
  - reflexivity.
  - reflexivity.
  - vm_compute. reflexivity.
Defined.

Lemma list_merged_prs_returns_numbers_witness :
  Forall (fun id => id <> [] /\ Forall (fun c => is_digit c = true) id)
    [lit "10"; lit "11"; lit "12"; lit "13"].
Proof.
  apply (list_merged_prs_returns_numbers (lit "v1.0.0") demo_version
           (demo_start [] [Output demo_log])
           (fst (list_merged_prs (lit "v1.0.0") demo_version
                   (demo_start [] [Output demo_log])))).
  apply run_outcome. vm_compute. reflexivity.
Defined.

Lemma assert_version_error_body_of_another_shape_witness :
  exists req w,
    assert_version (H0 := scripted_knowing [JArr []]) demo_jira demo_version demo_proxy
    = (version_sent demo_jira demo_version req w demo_proxy, Raise AttributeError).
Proof.
  eexists _, _.
  eapply (assert_version_error_body_of_another_shape
            (H0 := scripted_knowing [JArr []]) demo_jira demo_version demo_proxy
            _ _ 500 (body_of (JArr [])) _ (JArr [])).
  - vm_compute. reflexivity.
  - reflexivity.
  - vm_compute. reflexivity.
  - vm_compute. reflexivity.
  - by left.
Defined.

Lemma failed_lookup_ends_the_run_witness :
  main (demo_args None) demo_run_lost_pr
  = (fst (get_jira_id_from_pr (github_of (demo_args None)) (lit "ABC") (lit "11")
            (fst (collect_jira_ids (github_of (demo_args None)) (lit "ABC") [lit "10"] []
                    (after_listing ([lit "10"] ++ lit "11" :: [lit "12"; lit "13"])
                       (after_log (Some (lit "v1.0.0")) demo_run_lost_pr))))),
     Raise (HTTPError 404 (blit "Not Found"))).
Proof.
  apply (failed_lookup_ends_the_run (demo_args None) demo_run_lost_pr
           (after_startup demo_run_lost_pr) demo_version
           (after_load demo_run_lost_pr) demo_jira
           (after_tags demo_run_lost_pr) (Some (lit "v1.0.0"))
           (after_log (Some (lit "v1.0.0")) demo_run_lost_pr)
           [lit "10"] (lit "11") [lit "12"; lit "13"]
           (fst (collect_jira_ids (github_of (demo_args None)) (lit "ABC") [lit "10"] []
                   (after_listing ([lit "10"] ++ lit "11" :: [lit "12"; lit "13"])
                      (after_log (Some (lit "v1.0.0")) demo_run_lost_pr))))
           [lit "ABC-5"]).
  - apply run_outcome. vm_compute. reflexivity.
  - vm_compute. reflexivity.
  - apply run_outcome. vm_compute. reflexivity.
  - apply run_outcome. vm_compute. reflexivity.
  - apply run_outcome. vm_compute. reflexivity.
  - apply run_outcome. vm_compute. reflexivity.
  - apply run_outcome. vm_compute. reflexivity.
Defined.

Lemma missing_previous_tag_falls_back_to_100_commits_witness :
  exists st' r,
    prepare_release (demo_args None) demo_version (after_startup demo_run_first_release)
    = (st', r)
    /\ exists evs,
         trace st'
         = trace (after_tags demo_run_first_release)
           ++ [EvPrint (Line (lit "did not find a version before " ++ demo_version
                              ++ lit ", fall back to last 100 commits"));
               EvPrint (Line (lit "listing all merged PRs between "
                              ++ (demo_version ++ lit "~100") ++ lit " and "
                              ++ demo_version));
               EvGit (log_command (demo_version ++ lit "~100") demo_version)]
           ++ evs.
Proof.
  apply (missing_previous_tag_falls_back_to_100_commits (demo_args None) demo_version
           (after_startup demo_run_first_release)
           (after_load demo_run_first_release) demo_jira
           (after_tags demo_run_first_release)).
  - apply run_outcome. vm_compute. reflexivity.
  - apply run_outcome. vm_compute. reflexivity.
Defined.

Lemma failed_project_load_ends_the_run_witness :
  main (demo_args None) demo_run_refused
  = ({| world := ([], [Output demo_tags; Output demo_log]);
        trace := trace (after_startup demo_run_refused)
                 ++ [EvHttp (built (project_request (jira_of (demo_args None))))] |},
     Raise (HTTPError 401 (blit "Unauthorized"))).
Proof.
  apply (failed_project_load_ends_the_run (demo_args None) demo_run_refused
           (after_startup demo_run_refused) demo_version).
  - apply run_outcome. vm_compute. reflexivity.
  - vm_compute. reflexivity.
  - vm_compute. reflexivity.
  - vm_compute. reflexivity.
Defined.

Lemma non_ascii_credentials_end_the_run_witness :
  main demo_args_accent (demo_start [] [Failed 128; Failed 128])
  = (fst (startup demo_args_accent (demo_start [] [Failed 128; Failed 128])),
     Raise UnicodeEncodeError)
  /\ exists evs,
       trace (fst (startup demo_args_accent (demo_start [] [Failed 128; Failed 128])))
       = trace (demo_start [] [Failed 128; Failed 128]) ++ evs
       /\ Forall no_http_call evs.
Proof.
  apply (non_ascii_credentials_end_the_run demo_args_accent
           (demo_start [] [Failed 128; Failed 128])
           (fst (startup demo_args_accent (demo_start [] [Failed 128; Failed 128])))
           demo_version).
  - apply run_outcome. vm_compute. reflexivity.
  - vm_compute. reflexivity.
  - vm_compute. reflexivity.
  - vm_compute. reflexivity.
Defined.

Lemma complete_run_attaches_every_issue_witness :
  let ids := [lit "ABC-6"; lit "ABC-5"; lit "ABC-124"; lit "ABC-123"] in
  let st2 := fst (attach_all demo_jira demo_version ids (after_prepare demo_run_complete)) in
  main (demo_args None) demo_run_complete = (st2, Ok tt)
  /\ trace st2
     = trace (after_prepare demo_run_complete) ++ attach_trace demo_jira demo_version ids
  /\ Forall (fun issue_id =>
               exists req, fix_version_request demo_jira issue_id demo_version = Ok req)
       ids.
Proof.
  intros ids st2.
  apply (complete_run_attaches_every_issue (demo_args None) demo_run_complete
           (after_startup demo_run_complete) demo_version
           (after_prepare demo_run_complete) demo_jira ids st2).
  - apply run_outcome. vm_compute. reflexivity.
  - vm_compute. reflexivity.
  - apply run_outcome. vm_compute. reflexivity.
  - apply run_outcome. vm_compute. reflexivity.
Defined.

Lemma run_without_pull_requests_witness :
  main (demo_args None) demo_run_first_release
  = (fst (assert_version demo_jira demo_version
            (after_found [] (after_listing [] (after_log None demo_run_first_release)))),
     Ok tt).
Proof.
  apply (run_without_pull_requests (demo_args None) demo_run_first_release
           (after_startup demo_run_first_release) demo_version
           (after_load demo_run_first_release) demo_jira
           (after_tags demo_run_first_release) None
           (after_log None demo_run_first_release)).
  - apply run_outcome. vm_compute. reflexivity.
  - vm_compute. reflexivity.
  - apply run_outcome. vm_compute. reflexivity.
  - apply run_outcome. vm_compute. reflexivity.
  - apply run_outcome. vm_compute. reflexivity.
  - apply run_outcome. vm_compute. reflexivity.
Defined.

Lemma get_jira_id_from_pr_without_title_witness :
  get_jira_id_from_pr demo_github (lit "ABC") (lit "10")
    (demo_start [Response (body_of (JObj []))] [])
  = ({| world := ([], []);
        trace := [EvHttp (built (pr_request demo_github (lit "10")))] |},
     Raise (KeyError (lit "title"))).
Proof.
  apply (get_jira_id_from_pr_without_title demo_github (lit "ABC") (lit "10")
           (demo_start [Response (body_of (JObj []))] [])
           (built (pr_request demo_github (lit "10"))) ([], [])
           (body_of (JObj [])) []).
  - vm_compute. reflexivity.
  - reflexivity.
  - vm_compute. reflexivity.
  - reflexivity.
Defined.
